(** * The Grist catalog connector: listing, download and credential handling

  A shallow embedding of the connector's three entry points
  ([prepare], [listResources], [getResource]) together with the
  JavaScript string primitives they are written with, and the
  properties of the addressing scheme proved about them.

  JavaScript strings are embedded as [string]; every primitive used by
  the connector on identifiers (concatenation, [includes], [indexOf],
  [split], [substring]) is position based, and identifiers and URLs are
  ASCII, so that one [ascii] stands for one code unit.  The translated
  messages contain accented letters; only concatenation and [includes]
  are applied to them. *)

From Stdlib Require Import String Ascii ZArith List Lia Bool DecimalString.
From stdpp Require Import gmap strings.
Import ListNotations.
Open Scope string_scope.
Open Scope Z_scope.

Set Implicit Arguments.

(** Concatenation with a literal prefix reduces under [simpl]. *)
#[local] Arguments String.append !_ _ / : simpl nomatch.

(** ** JavaScript string primitives *)

Module Js.

(** [s.startsWith(pat)], the test behind [includes] and [indexOf]. *)
Fixpoint startsWith (s pat : string) : bool :=
  match pat, s with
  | EmptyString, _ => true
  | String _ _, EmptyString => false
  | String p pat', String c s' => Ascii.eqb c p && startsWith s' pat'
  end.

(** [s.includes(pat)]. *)
Fixpoint includes (s pat : string) : bool :=
  startsWith s pat ||
  match s with
  | EmptyString => false
  | String _ s' => includes s' pat
  end.

(** [s.indexOf(pat)]: position of the first occurrence, [-1] when there
    is none. *)
Fixpoint indexOf (s pat : string) : Z :=
  if startsWith s pat then 0
  else match s with
       | EmptyString => -1
       | String _ s' =>
           let i := indexOf s' pat in
           if i <? 0 then -1 else i + 1
       end.

Fixpoint drop (n : nat) (s : string) : string :=
  match n, s with
  | O, _ => s
  | S _, EmptyString => EmptyString
  | S n', String _ s' => drop n' s'
  end.

Fixpoint take (n : nat) (s : string) : string :=
  match n, s with
  | O, _ => EmptyString
  | S _, EmptyString => EmptyString
  | S n', String c s' => String c (take n' s')
  end.

(** [s.substring(start, end)]; [None] stands for an omitted [end].  Both
    bounds are clamped to [0 .. s.length] and swapped when out of
    order. *)
Definition substring (s : string) (start : Z) (stop : option Z) : string :=
  let len := Z.of_nat (String.length s) in
  let clamp x := Z.min (Z.max x 0) len in
  let a := clamp start in
  let b := match stop with Some e => clamp e | None => len end in
  let lo := Z.min a b in
  let hi := Z.max a b in
  take (Z.to_nat (hi - lo)) (drop (Z.to_nat lo) s).

(** [s.split(sep)] for a one-character separator: never empty. *)
Fixpoint split (s : string) (sep : ascii) : list string :=
  match s with
  | EmptyString => [EmptyString]
  | String c s' =>
      if Ascii.eqb c sep then EmptyString :: split s' sep
      else match split s' sep with
           | piece :: rest => String c piece :: rest
           | [] => [String c EmptyString]
           end
  end.

(** [s.split(sep, limit)]: the first [limit] pieces, the rest dropped. *)
Definition splitLimit (s : string) (sep : ascii) (limit : nat) : list string :=
  firstn limit (split s sep).

(** [String(n)] for an integer-valued number below 10^21 in magnitude. *)
Definition ofNumber (n : Z) : string :=
  NilZero.string_of_int (Z.to_int n).

(** A value interpolated in a template literal or concatenated to a
    string: [undefined] prints as the nine letters. *)
Definition show (v : option string) : string :=
  match v with
  | Some s => s
  | None => "undefined"
  end.

(** Truthiness of a possibly absent string: [undefined] and [""] are
    falsy. *)
Definition truthy (v : option string) : bool :=
  match v with
  | Some s => negb (String.eqb s "")
  | None => false
  end.

(** [v === 'literal'] on a possibly absent string. *)
Definition strictEquals (v : option string) (literal : string) : bool :=
  match v with
  | Some s => String.eqb s literal
  | None => false
  end.

(** The characters of a string, for statements about its alphabet. *)
Fixpoint chars (s : string) : list ascii :=
  match s with
  | EmptyString => []
  | String c s' => c :: chars s'
  end.

(** No occurrence of character [c]. *)
Definition lacks (c : ascii) (s : string) : Prop := ~ In c (chars s).

End Js.

(** ** Data exchanged with the remote service *)

(** Modelled from the spec: the [#types] declarations ([GristConfig],
    [Organization], [Workspace], [Document], [Table]) are not part of the
    sources; each record below carries the fields that the code reads and
    that the test payloads build.  Identifiers of organizations and
    workspaces are numbers, those of documents and tables are strings. *)
Record GristConfig := {
  cfg_url : string;
  cfg_apiKey : option string
}.

Record Owner := { owner_name : string }.

Record Organization := {
  org_name : string;
  org_id : Z;
  org_domain : string;
  org_owner : option Owner
}.

Inductive Workspace :=
| mkWorkspace (name : string) (id : Z)
    (docs : option (list Document)) (org : option Organization)
with Document :=
| mkDocument (name : string) (id : string) (workspace : option Workspace).

Definition ws_name (w : Workspace) : string :=
  match w with mkWorkspace name _ _ _ => name end.
Definition ws_id (w : Workspace) : Z :=
  match w with mkWorkspace _ id _ _ => id end.
Definition ws_docs (w : Workspace) : option (list Document) :=
  match w with mkWorkspace _ _ docs _ => docs end.
Definition ws_org (w : Workspace) : option Organization :=
  match w with mkWorkspace _ _ _ org => org end.
Definition doc_name (d : Document) : string :=
  match d with mkDocument name _ _ => name end.
Definition doc_id (d : Document) : string :=
  match d with mkDocument _ id _ => id end.
Definition doc_workspace (d : Document) : option Workspace :=
  match d with mkDocument _ _ workspace => workspace end.

Record Table := { table_id : string }.

(** The body of the [table-schema] endpoint, as far as the code reads it. *)
Record Dialect := { delimiter : option string }.

Record Field := {
  field_name : string;
  field_description : option string;
  field_type : option string;
  field_dialect : option Dialect
}.

Record Schema := { schema_fields : option (list Field) }.

Record TableSchema := {
  ts_name : option string;
  ts_title : option string;
  ts_schema : option Schema
}.

(** A response body.  The code receives it as [any] and casts it to the
    type it expects at each call site. *)
Inductive Payload :=
| POrganizations (orgs : list Organization)
| POrganization (org : Organization)
| PWorkspaces (workspaces : list Workspace)
| PWorkspace (workspace : Workspace)
| PTables (tables : list Table)
| PDocument (doc : Document)
| PTableSchema (data : TableSchema)
| PStream (chunks : list string)
| POther (json : string).

(** ** What the connector hands back to the host *)

Inductive EntryType := folder | resource.

Record Entry := {
  entry_id : string;
  entry_title : string;
  entry_type : EntryType;
  entry_format : option string
}.

Record ListResult := {
  count : nat;
  results : list Entry;
  path : list Entry
}.

Record SchemaField := {
  key : string;
  sf_title : string;
  sf_description : option string;
  separator : option string
}.

Record Resource := {
  res_id : option string;
  res_title : option string;
  res_format : string;
  res_mimeType : string;
  res_origin : string;
  res_size : option Z;
  res_filePath : string;
  res_schema : option (list SchemaField)
}.

(** ** Effects: requests, console, host log, scratch files, exceptions *)

(** A thrown value: an [Error] instance with its class name and message,
    or anything else, kept as its [JSON.stringify] rendering. *)
Inductive Thrown :=
| ErrorObject (name message : string)
| OtherValue (json : string).

Record Request := {
  req_url : string;
  req_authorization : string;
  req_stream : bool
}.

Inductive LogCall :=
| LogStep (msg : string)
| LogTask (key msg : string)
| LogProgress (key : string) (progress : Z) (total : option Z)
| LogInfo (msg : string)
| LogError (msg : string).

(** Everything a call can change, accumulated oldest first. *)
Record World := {
  requests : list Request;
  console : list string;
  journal : list LogCall;
  files : gmap string string;
  ticks : nat
}.

Inductive Reply :=
| Rejects (err : Thrown)
| Replies (status : Z) (data : Payload).

Record SlugOptions := {
  lower : bool;
  strict : bool;
  replacement : string
}.

(** The two HTTP clients of the sources: the stock [axios] of the
    navigator and of the earlier fetcher, and the instance exported by
    [@data-fair/lib-node/axios.js] that the fetcher and [prepare] import. *)
Inductive Client :=
| StockAxios
| LibNodeAxios.

(** A write stream that fails: the error it emits, and what the file holds
    afterwards.  [fs.createWriteStream] creates the file, or truncates it,
    as soon as it could open it, so that a failed write leaves the bytes
    that got through ([Some]); only a stream that could not open the file
    leaves the disk as it was ([None]). *)
Record DiskFailure := {
  df_error : Thrown;
  df_left : option string
}.

(** Everything a call depends on and does not own: the remote service
    behind [axios], the value a client rejects with on a status it does
    not accept, the disk behind the write stream, the clock, and the
    library functions [path.join], [new URL(..).toString()] and
    [JSON.stringify], whose code is not the connector's. *)
Record Env := {
  http : string -> string -> Reply;
  rejection : Client -> Z -> Payload -> Thrown;
  disk : string -> option DiskFailure;
  now : nat -> Z;
  path_join : string -> string -> string;
  url_href : string -> option string;
  stringify : Payload -> string
}.

(** How a call ends.  [IllTyped] marks a run in which a response body
    does not have the type it is cast to; the typed embedding says
    nothing more about such a run. *)
Inductive Completion (A : Type) :=
| Returns (a : A)
| Throws (e : Thrown)
| IllTyped.

Arguments Returns {A} a.
Arguments Throws {A} e.
Arguments IllTyped {A}.

Definition Eff (A : Type) : Type := World -> Completion A * World.

Definition ret {A} (a : A) : Eff A := fun w => (Returns a, w).

Definition bind {A B} (c : Eff A) (k : A -> Eff B) : Eff B :=
  fun w =>
    match c w with
    | (Returns a, w') => k a w'
    | (Throws e, w') => (Throws e, w')
    | (IllTyped, w') => (IllTyped, w')
    end.

Definition throw {A} (e : Thrown) : Eff A := fun w => (Throws e, w).

Definition illTyped {A} : Eff A := fun w => (IllTyped, w).

(** [try { c } catch (err) { handler err }]. *)
Definition tryCatch {A} (c : Eff A) (handler : Thrown -> Eff A) : Eff A :=
  fun w =>
    match c w with
    | (Throws e, w') => handler e w'
    | other => other
    end.

Declare Scope eff_scope.
Delimit Scope eff_scope with eff.
Notation "x <- c ;; k" := (bind c (fun x => k))
  (at level 100, c at next level, right associativity) : eff_scope.
Notation "c ;;; k" := (bind c (fun _ => k))
  (at level 100, right associativity) : eff_scope.
Open Scope eff_scope.

(** The updates of the world, one per kind of effect. *)
Definition addRequest (r : Request) (w : World) : World :=
  {| requests := requests w ++ [r]; console := console w;
     journal := journal w; files := files w; ticks := ticks w |}.

Definition addConsole (line : string) (w : World) : World :=
  {| requests := requests w; console := console w ++ [line];
     journal := journal w; files := files w; ticks := ticks w |}.

Definition addJournal (c : LogCall) (w : World) : World :=
  {| requests := requests w; console := console w;
     journal := journal w ++ [c]; files := files w; ticks := ticks w |}.

Definition addFile (name content : string) (w : World) : World :=
  {| requests := requests w; console := console w;
     journal := journal w; files := <[name := content]> (files w);
     ticks := ticks w |}.

Definition tick (w : World) : World :=
  {| requests := requests w; console := console w;
     journal := journal w; files := files w; ticks := S (ticks w) |}.

(** [console.error(line)]. *)
Definition consoleError (line : string) : Eff unit :=
  fun w => (Returns tt, addConsole line w).

(** A call on the [log] object of the host. *)
Definition logCall (c : LogCall) : Eff unit :=
  fun w => (Returns tt, addJournal c w).

(** [Date.now()]: the next reading of the clock. *)
Definition dateNow (env : Env) : Eff Z :=
  fun w => (Returns (now env (ticks w)), tick w).

Record Response := {
  status : Z;
  data : Payload
}.

(** The default [validateStatus] of axios, which no call site replaces:
    [status >= 200 && status < 300]. *)
Definition validateStatus (st : Z) : bool := (200 <=? st) && (st <? 300).

(** [axios(url, { headers: { Authorization }, responseType })]: the request
    is recorded, then the remote service decides.  The promise resolves on
    a status that [validateStatus] accepts and is rejected on every other
    one, as it is when the transport fails. *)
Definition axios (env : Env) (client : Client) (url authorization : string)
  (stream : bool) : Eff Response :=
  fun w =>
    let w' :=
      addRequest {| req_url := url; req_authorization := authorization;
                    req_stream := stream |} w in
    match http env url authorization with
    | Rejects err => (Throws err, w')
    | Replies st body =>
        if validateStatus st
        then (Returns {| status := st; data := body |}, w')
        else (Throws (rejection env client st body), w')
    end.

(** [err instanceof Error ? err.message : JSON.stringify(err)]. *)
Definition describe (err : Thrown) : string :=
  match err with
  | ErrorObject _ message => message
  | OtherValue json => json
  end.

(** [error instanceof Error ? error.message : 'Unknown error']. *)
Definition messageOrUnknown (err : Thrown) : string :=
  match err with
  | ErrorObject _ message => message
  | OtherValue _ => "Unknown error"
  end.

(** The [Bearer] header built from a secret that may be missing. *)
Definition bearer (apiKey : option string) : string :=
  "Bearer " ++ Js.show apiKey.

(** [catalogConfig.url.includes('.getgrist.com')]: the hosted service. *)
Definition onGristDomain (cfg : GristConfig) : bool :=
  Js.includes (cfg_url cfg) ".getgrist.com".

(** ** The remote client and the navigator ([sendRequest], [list]) *)

Record ListContext := {
  lc_catalogConfig : GristConfig;
  lc_secrets : gmap string string;
  lc_currentFolderId : option string
}.

(** The message of the error that [sendRequest] raises, whatever went
    wrong. *)
Definition fetchFailedMessage : string :=
  "Erreur pendant la récupération des données, pensez à vérifier si l'url ou la clé d'API est correcte".

(** The phrase shared by the errors of the listing and of the download. *)
Definition retrievalFailurePhrase : string :=
  "Erreur pendant la récupération des données".

(** [sendRequest(url, apiKey)].  The source wraps the function in
    [memoize] with a five-minute [maxAge]; a cache hit replays the promise
    of an earlier call and issues no request, so that only the calls that
    reach the remote service are embedded. *)
Definition sendRequest (env : Env) (url : string) (apiKey : option string)
  : Eff Payload :=
  tryCatch
    (rep <- axios env StockAxios url (bearer apiKey) false ;;
     if negb (status rep =? 200) then
       throw (ErrorObject "Error"
                ("HTTP " ++ Js.ofNumber (status rep) ++ ", " ++
                 stringify env (data rep)))
     else ret (data rep))
    (fun err =>
       consoleError ("Error while fetching data: " ++ describe err) ;;;
       throw (ErrorObject "Error" fetchFailedMessage)).

(** The casts of a response body to the type expected at a call site. *)
Definition asOrganizations (p : Payload) : Eff (list Organization) :=
  match p with POrganizations l => ret l | _ => illTyped end.
Definition asOrganization (p : Payload) : Eff Organization :=
  match p with POrganization o => ret o | _ => illTyped end.
Definition asWorkspaces (p : Payload) : Eff (list Workspace) :=
  match p with PWorkspaces l => ret l | _ => illTyped end.
Definition asWorkspace (p : Payload) : Eff Workspace :=
  match p with PWorkspace w => ret w | _ => illTyped end.
Definition asTables (p : Payload) : Eff (list Table) :=
  match p with PTables l => ret l | _ => illTyped end.
Definition asDocument (p : Payload) : Eff Document :=
  match p with PDocument d => ret d | _ => illTyped end.
Definition asTableSchema (p : Payload) : Eff TableSchema :=
  match p with PTableSchema d => ret d | _ => illTyped end.
Definition asStream (p : Payload) : Eff (list string) :=
  match p with PStream chunks => ret chunks | _ => illTyped end.

Definition mkFolder (id title : string) : Entry :=
  {| entry_id := id; entry_title := title; entry_type := folder;
     entry_format := None |}.

(** The folder pushed for one organization of the root listing. *)
Definition organizationFolder (element : Organization) : Entry :=
  let addName :=
    if String.eqb (org_name element) "Personal"
    then " (@" ++ Js.show (option_map owner_name (org_owner element)) ++ ")"
    else "" in
  mkFolder ("/orgs/" ++ Js.ofNumber (org_id element))
           (org_name element ++ addName).

(** The folder pushed for one workspace of an organization. *)
Definition workspaceFolder (element : Workspace) : Entry :=
  mkFolder ("/workspaces/" ++ Js.ofNumber (ws_id element)) (ws_name element).

(** The folder pushed for one document of a workspace; [domain] is
    [res.org?.domain]. *)
Definition documentFolder (domain : option string) (element : Document) : Entry :=
  mkFolder (Js.show domain ++ "|/docs/" ++ doc_id element) (doc_name element).

(** The resource pushed for one table of a document. *)
Definition tableResource (domain docUrl : string) (element : Table) : Entry :=
  {| entry_id :=
       domain ++ "|" ++ Js.substring docUrl 6 None ++ "|" ++ table_id element;
     entry_title := table_id element;
     entry_type := resource;
     entry_format := Some "csv" |}.

(** [id] of a possibly absent organization or workspace, concatenated to
    a prefix: [undefined] when the object is missing. *)
Definition showNumber (n : option Z) : string :=
  Js.show (option_map Js.ofNumber n).

(** [x ?? ''] on a possibly absent string. *)
Definition orEmpty (v : option string) : string :=
  match v with Some s => s | None => "" end.

(** The four shapes of [currentFolderId], in the order the source tests
    them. *)
Inductive Level := Root | OrganizationLevel | WorkspaceLevel | DocumentLevel.

Definition dispatch (currentFolderId : option string) : Level :=
  if negb (Js.truthy currentFolderId) then Root
  else if Js.includes (Js.show currentFolderId) "/orgs/" then OrganizationLevel
  else if Js.includes (Js.show currentFolderId) "/workspaces/" then WorkspaceLevel
  else DocumentLevel.

(** First branch: list organizations (to select one). *)
Definition listOrganizations (env : Env) (ctx : ListContext) : Eff ListResult :=
  let url := cfg_url (lc_catalogConfig ctx) ++ "/api/orgs" in
  body <- sendRequest env url (lc_secrets ctx !! "apiKey") ;;
  res <- asOrganizations body ;;
  let folders := map organizationFolder res in
  ret {| count := List.length folders; results := folders; path := [] |}.

(** Second branch: list workspaces of an organization. *)
Definition listWorkspaces (env : Env) (ctx : ListContext)
  (currentFolderId : string) : Eff ListResult :=
  let url :=
    cfg_url (lc_catalogConfig ctx) ++ "/api" ++ currentFolderId ++ "/workspaces" in
  body <- sendRequest env url (lc_secrets ctx !! "apiKey") ;;
  res <- asWorkspaces body ;;
  let folders := map workspaceFolder res in
  body' <- sendRequest env
             (Js.substring url 0 (Some (Js.indexOf url "/workspaces")))
             (lc_secrets ctx !! "apiKey") ;;
  resPath <- asOrganization body' ;;
  ret {| count := List.length folders; results := folders;
         path := [mkFolder currentFolderId (org_name resPath)] |}.

(** Third branch: list documents of a workspace. *)
Definition listDocuments (env : Env) (ctx : ListContext)
  (currentFolderId : string) : Eff ListResult :=
  let url := cfg_url (lc_catalogConfig ctx) ++ "/api" ++ currentFolderId in
  body <- sendRequest env url (lc_secrets ctx !! "apiKey") ;;
  res <- asWorkspace body ;;
  let domain := option_map org_domain (ws_org res) in
  let folders :=
    match ws_docs res with
    | Some docs => map (documentFolder domain) docs
    | None => []
    end in
  ret {| count := List.length folders; results := folders;
         path :=
           [mkFolder ("/orgs/" ++ showNumber (option_map org_id (ws_org res)))
                     (orEmpty (option_map org_name (ws_org res)));
            mkFolder currentFolderId (ws_name res)] |}.

(** [const [domain, docUrl] = params.currentFolderId.split('|', 2)]. *)
Definition folderIdParts (currentFolderId : string) : string * option string :=
  let parts := Js.splitLimit currentFolderId "|" 2 in
  (nth 0 parts "", nth_error parts 1).

(** The address of the table list of a document. *)
Definition tablesUrl (cfg : GristConfig) (currentFolderId : string) : string :=
  let '(domain, docUrl) := folderIdParts currentFolderId in
  if onGristDomain cfg
  then cfg_url cfg ++ "/api" ++ Js.show docUrl ++ "/tables"
  else cfg_url cfg ++ "/o/" ++ domain ++ "/api" ++ Js.show docUrl ++ "/tables".

(** The error of [docUrl.substring(6)] when [docUrl] is [undefined]. *)
Definition substringOfUndefined : Thrown :=
  ErrorObject "TypeError"
    "Cannot read properties of undefined (reading 'substring')".

(** Fourth branch: list tables of a document. *)
Definition listTables (env : Env) (ctx : ListContext)
  (currentFolderId : string) : Eff ListResult :=
  let '(domain, docUrl) := folderIdParts currentFolderId in
  let url := tablesUrl (lc_catalogConfig ctx) currentFolderId in
  body <- sendRequest env url (lc_secrets ctx !! "apiKey") ;;
  res <- asTables body ;;
  folders <-
    match docUrl, res with
    | Some docUrl, _ => ret (map (tableResource domain docUrl) res)
    | None, [] => ret []
    | None, _ :: _ => throw substringOfUndefined
    end ;;
  body' <- sendRequest env
             (Js.substring url 0 (Some (Js.indexOf url "/tables")))
             (lc_secrets ctx !! "apiKey") ;;
  resPath <- asDocument body' ;;
  let workspace := doc_workspace resPath in
  let org := match workspace with Some w => ws_org w | None => None end in
  ret {| count := List.length folders; results := folders;
         path :=
           [mkFolder ("/orgs/" ++ showNumber (option_map org_id org))
                     (orEmpty (option_map org_name org));
            mkFolder ("/workspaces/" ++ showNumber (option_map ws_id workspace))
                     (orEmpty (option_map ws_name workspace));
            mkFolder currentFolderId (doc_name resPath)] |}.

(** [list], exported to the host as [listResources]. *)
Definition listResources (env : Env) (ctx : ListContext) : Eff ListResult :=
  match dispatch (lc_currentFolderId ctx) with
  | Root => listOrganizations env ctx
  | OrganizationLevel =>
      listWorkspaces env ctx (Js.show (lc_currentFolderId ctx))
  | WorkspaceLevel =>
      listDocuments env ctx (Js.show (lc_currentFolderId ctx))
  | DocumentLevel =>
      listTables env ctx (Js.show (lc_currentFolderId ctx))
  end.

(** ** The fetcher ([getResource], [getMetadataOnFields]) *)

Record GetResourceContext := {
  gc_catalogConfig : GristConfig;
  gc_secrets : gmap string string;
  gc_resourceId : string;
  gc_tmpDir : string
}.

(** [const [domain, docId, tableId] = resourceId.split('|', 3)]: each of
    the three names is [undefined] when the identifier has fewer
    pieces. *)
Record ResourceIdParts := {
  part_domain : option string;
  part_docId : option string;
  part_tableId : option string
}.

Definition resourceIdParts (resourceId : string) : ResourceIdParts :=
  let parts := Js.splitLimit resourceId "|" 3 in
  {| part_domain := nth_error parts 0;
     part_docId := nth_error parts 1;
     part_tableId := nth_error parts 2 |}.

(** The address of a document endpoint ([csv] or [table-schema]) for a
    table. *)
Definition downloadUrl (cfg : GristConfig) (resourceId endpoint : string) : string :=
  let p := resourceIdParts resourceId in
  if onGristDomain cfg
  then cfg_url cfg ++ "/api/docs/" ++ Js.show (part_docId p) ++
       "/download/" ++ endpoint ++ "?tableId=" ++ Js.show (part_tableId p)
  else cfg_url cfg ++ "/o/" ++ Js.show (part_domain p) ++ "/api/docs/" ++
       Js.show (part_docId p) ++ "/download/" ++ endpoint ++ "?tableId=" ++
       Js.show (part_tableId p).

(** The link back to the source document. *)
Definition originOf (cfg : GristConfig) (resourceId : string) : string :=
  let p := resourceIdParts resourceId in
  if onGristDomain cfg
  then cfg_url cfg ++ "/" ++ Js.show (part_docId p)
  else cfg_url cfg ++ "/o/" ++ Js.show (part_domain p) ++ "/" ++
       Js.show (part_docId p).

(** [fs.createWriteStream(destFile)] and [res.data.pipe(writer)] awaited
    until [finish] or [error]: the file receives the whole body, unless the
    stream fails and leaves what [DiskFailure] describes. *)
Definition pipeToFile (env : Env) (destFile : string) (chunks : list string)
  : Eff unit :=
  fun w =>
    match disk env destFile with
    | Some failure =>
        (Throws (df_error failure),
         match df_left failure with
         | Some written => addFile destFile written w
         | None => w
         end)
    | None => (Returns tt, addFile destFile (String.concat "" chunks) w)
    end.

(** [fs.statSync(destFile).size]; the file has just been written. *)
Definition statSize (destFile : string) : Eff Z :=
  fun w =>
    match files w !! destFile with
    | Some content => (Returns (Z.of_nat (String.length content)), w)
    | None =>
        (Throws (ErrorObject "Error"
                   ("ENOENT: no such file or directory, stat '" ++ destFile ++ "'")),
         w)
    end.

Definition logInterval : Z := 500.

(** The [data] listener of the response stream: counts the bytes and
    reports progress when more than [logInterval] ms have passed since
    the last report. *)
Fixpoint onData (env : Env) (tableId : option string) (chunks : list string)
  (downloaded lastLogged : Z) : Eff Z :=
  match chunks with
  | [] => ret downloaded
  | chunk :: rest =>
      let downloaded' := downloaded + Z.of_nat (String.length chunk) in
      t <- dateNow env ;;
      if logInterval <? t - lastLogged then
        logCall (LogProgress ("Downloading " ++ Js.show tableId) downloaded' None) ;;;
        t' <- dateNow env ;;
        onData env tableId rest downloaded' t'
      else onData env tableId rest downloaded' lastLogged
  end.

(** [field.dialect?.delimiter]. *)
Definition dialectDelimiter (field : Field) : option string :=
  match field_dialect field with
  | Some d => delimiter d
  | None => None
  end.

(** The classes of characters a slug is made of. *)
Definition isDigit (c : ascii) : bool :=
  Nat.leb 48 (nat_of_ascii c) && Nat.leb (nat_of_ascii c) 57.

Definition isLower (c : ascii) : bool :=
  Nat.leb 97 (nat_of_ascii c) && Nat.leb (nat_of_ascii c) 122.

Definition isUpper (c : ascii) : bool :=
  Nat.leb 65 (nat_of_ascii c) && Nat.leb (nat_of_ascii c) 90.

Definition isAlphanumeric (c : ascii) : bool :=
  isDigit c || isLower c || isUpper c.

Definition toLower (c : ascii) : ascii :=
  if isUpper c then ascii_of_nat (nat_of_ascii c + 32) else c.

(** Modelled from the spec: the slug of a text, read from its first
    character on: letters and digits are kept, in lower case under
    [lower], and every run of other characters is replaced by one
    [replacement]; [inRun] tells that the characters just before were of
    such a run, which has been replaced already. *)
Fixpoint slugFrom (opts : SlugOptions) (inRun : bool) (text : string) : string :=
  match text with
  | EmptyString => EmptyString
  | String c rest =>
      if isAlphanumeric c then
        String (if lower opts then toLower c else c) (slugFrom opts false rest)
      else if inRun then slugFrom opts true rest
      else replacement opts ++ slugFrom opts true rest
  end.

(** Modelled from the spec: [slugify(text, { lower, strict, replacement })]
    of the [slugify] package, whose code is not among the sources. *)
Definition slugify (text : string) (opts : SlugOptions) : string :=
  slugFrom opts false text.

(** One entry of [resource.schema]. *)
Definition schemaField (field : Field) : SchemaField :=
  let separator :=
    if Js.strictEquals (field_type field) "array" then
      if negb (Js.truthy (dialectDelimiter field)) ||
         Js.strictEquals (dialectDelimiter field) ","
      then Some ", "
      else dialectDelimiter field
    else None in
  {| key := slugify (field_name field)
              {| lower := true; strict := true; replacement := "_" |};
     sf_title := field_name field;
     sf_description := field_description field;
     separator := separator |}.

(** [data.schema?.fields || []]. *)
Definition fieldsOf (data : TableSchema) : list Field :=
  match ts_schema data with
  | Some {| schema_fields := Some fields |} => fields
  | _ => []
  end.

(** The resource built from the body of the [table-schema] endpoint. *)
Definition resourceOfSchema (ctx : GetResourceContext) (data : TableSchema)
  : Resource :=
  let origin := originOf (gc_catalogConfig ctx) (gc_resourceId ctx) in
  let fields := fieldsOf data in
  {| res_id := ts_name data;
     res_title := if Js.truthy (ts_title data) then ts_title data
                  else ts_name data;
     res_format := "csv";
     res_mimeType := "text/csv";
     res_origin := origin;
     res_size := None;
     res_filePath := "";
     res_schema := Some (map schemaField fields) |}.

(** [getMetadataOnFields(context)]. *)
Definition getMetadataOnFields (env : Env) (ctx : GetResourceContext)
  : Eff Resource :=
  logCall (LogInfo "Récupération des métadonnées") ;;;
  let url := downloadUrl (gc_catalogConfig ctx) (gc_resourceId ctx) "table-schema" in
  res <- axios env LibNodeAxios url (bearer (gc_secrets ctx !! "apiKey")) false ;;
  (if negb (status res =? 200) then
     consoleError ("Failed to fetch resource metadata: HTTP " ++
                   Js.ofNumber (status res) ++ " " ++ stringify env (data res)) ;;;
     throw (ErrorObject "Error"
              ("Erreur pendant la récupération des métadonnées (erreur HTTP " ++
               Js.ofNumber (status res) ++ ")"))
   else ret tt) ;;;
  data <- asTableSchema (data res) ;;
  ret (resourceOfSchema ctx data).

Definition withFilePath (r : Resource) (filePath : string) : Resource :=
  {| res_id := res_id r; res_title := res_title r; res_format := res_format r;
     res_mimeType := res_mimeType r; res_origin := res_origin r;
     res_size := res_size r; res_filePath := filePath;
     res_schema := res_schema r |}.

(** [getResource(context)] of [lib/download.ts]. *)
Definition getResource (env : Env) (ctx : GetResourceContext) : Eff Resource :=
  tryCatch
    (let tableId := part_tableId (resourceIdParts (gc_resourceId ctx)) in
     let url := downloadUrl (gc_catalogConfig ctx) (gc_resourceId ctx) "csv" in
     logCall (LogStep "Import de la ressource Grist") ;;;
     res <- axios env LibNodeAxios url (bearer (gc_secrets ctx !! "apiKey")) true ;;
     (if negb (status res =? 200) then
        consoleError ("Failed to fetch resource: HTTP " ++
                      Js.ofNumber (status res) ++ " " ++ stringify env (data res)) ;;;
        throw (ErrorObject "Error"
                 ("Erreur pendant la récupération des données (erreur HTTP " ++
                  Js.ofNumber (status res) ++ ")"))
      else ret tt) ;;;
     let destFile := path_join env (gc_tmpDir ctx) (Js.show tableId ++ ".csv") in
     logCall (LogTask ("Downloading " ++ Js.show tableId)
                      "Télécargement de la ressource") ;;;
     lastLogged <- dateNow env ;;
     chunks <- asStream (data res) ;;
     downloaded <- onData env tableId chunks 0 lastLogged ;;
     pipeToFile env destFile chunks ;;;
     logCall (LogProgress ("Downloading " ++ Js.show tableId)
                          downloaded (Some downloaded)) ;;;
     resource <- getMetadataOnFields env ctx ;;
     ret (withFilePath resource destFile))
    (fun error =>
       logCall (LogError ("Failed to fetch resource: HTTP " ++ describe error)) ;;;
       consoleError ("Error in getResource: " ++ describe error) ;;;
       throw (ErrorObject "Error"
                ("Erreur pendant la récupération des données: " ++
                 messageOrUnknown error))).

(** The earlier [getResource], without host log and without schema: the
    resource keeps the identifier and the table name it was asked for. *)
Definition getResourceLegacy (env : Env) (ctx : GetResourceContext)
  : Eff Resource :=
  tryCatch
    (let tableId := part_tableId (resourceIdParts (gc_resourceId ctx)) in
     let url := downloadUrl (gc_catalogConfig ctx) (gc_resourceId ctx) "csv" in
     res <- axios env StockAxios url (bearer (gc_secrets ctx !! "apiKey")) true ;;
     (if negb (status res =? 200) then
        consoleError ("Failed to fetch resource: HTTP " ++
                      Js.ofNumber (status res) ++ " " ++ stringify env (data res)) ;;;
        throw (ErrorObject "Error"
                 ("Erreur pendant la récupération des données (erreur HTTP " ++
                  Js.ofNumber (status res) ++ ")"))
      else ret tt) ;;;
     let destFile := path_join env (gc_tmpDir ctx) (Js.show tableId ++ ".csv") in
     chunks <- asStream (data res) ;;
     pipeToFile env destFile chunks ;;;
     let origin := originOf (gc_catalogConfig ctx) (gc_resourceId ctx) in
     size <- statSize destFile ;;
     ret {| res_id := Some (gc_resourceId ctx);
            res_title := tableId;
            res_format := "csv";
            res_mimeType := "text/csv";
            res_origin := origin;
            res_size := Some size;
            res_filePath := destFile;
            res_schema := None |})
    (fun error =>
       consoleError ("Error in getResource: " ++ describe error) ;;;
       throw (ErrorObject "Error"
                ("Erreur pendant la récupération des données: " ++
                 messageOrUnknown error))).

(** ** Credential handling ([prepare]) *)

Record PrepareContext := {
  pc_catalogConfig : GristConfig;
  pc_capabilities : list string;
  pc_secrets : gmap string string
}.

(** [lib/capabilities.ts]. *)
Definition capabilities : list string := ["import"; "thumbnail"].

(** The placeholder left in the configuration once the key is stored. *)
Definition redactedKey : string := "********".

(** The statement on which both versions of [prepare] open: move a newly
    typed key to the secrets, drop the secret when the key was emptied,
    leave everything alone otherwise.  An [undefined] key fails both
    tests.  The source updates the two objects in place; the updated
    objects are the ones it returns. *)
Definition storeApiKey (ctx : PrepareContext) : PrepareContext :=
  let apiKey := cfg_apiKey (pc_catalogConfig ctx) in
  match apiKey with
  | Some key =>
      if Js.truthy apiKey && negb (String.eqb key redactedKey) then
        {| pc_catalogConfig :=
             {| cfg_url := cfg_url (pc_catalogConfig ctx);
                cfg_apiKey := Some redactedKey |};
           pc_capabilities := pc_capabilities ctx;
           pc_secrets := <["apiKey" := key]> (pc_secrets ctx) |}
      else if Js.truthy (pc_secrets ctx !! "apiKey") && String.eqb key "" then
        {| pc_catalogConfig := pc_catalogConfig ctx;
           pc_capabilities := pc_capabilities ctx;
           pc_secrets := delete "apiKey" (pc_secrets ctx) |}
      else ctx
  | None => ctx
  end.

(** [prepare] without connectivity probe (the earlier version). *)
Definition prepareOffline (ctx : PrepareContext) : PrepareContext :=
  storeApiKey ctx.

Definition doubleQuote : string := String (Ascii.ascii_of_nat 34) EmptyString.

Definition urlRequiredMessage : string :=
  "Grist catalog configuration requires a " ++ doubleQuote ++ "url" ++
  doubleQuote ++ " property.".

Definition connectionFailedMessage : string :=
  "Erreur de connexion à l'API Grist, vérifiez l'URL et la clé d'API.".

(** [new URL(text).toString()]; the constructor throws on a text that is
    not a URL. *)
Definition newUrl (env : Env) (text : string) : Eff string :=
  match url_href env text with
  | Some href => ret href
  | None => throw (ErrorObject "TypeError" "Invalid URL")
  end.

(** [prepare] of [lib/prepare.ts]: the same, then a probe of the
    organization list with the stored key. *)
Definition prepare (env : Env) (ctx : PrepareContext) : Eff PrepareContext :=
  let ctx' := storeApiKey ctx in
  if String.eqb (cfg_url (pc_catalogConfig ctx')) "" then
    throw (ErrorObject "Error" urlRequiredMessage)
  else
    tryCatch
      (url <- newUrl env (cfg_url (pc_catalogConfig ctx') ++ "/api/orgs") ;;
       axios env LibNodeAxios url (bearer (pc_secrets ctx' !! "apiKey")) false ;;;
       ret tt)
      (fun error =>
         consoleError ("Error connecting to Grist API: " ++ describe error) ;;;
         throw (ErrorObject "Error" connectionFailedMessage)) ;;;
    ret ctx'.

(** ** Vocabulary of the statements *)

(** The world before any call. *)
Definition emptyWorld : World :=
  {| requests := []; console := []; journal := []; files := ∅; ticks := O |}.

(** A request that the remote service does not answer with status 200. *)
Definition failing (env : Env) (url authorization : string) : Prop :=
  match http env url authorization with
  | Rejects _ => True
  | Replies st _ => st <> 200
  end.

(** The requests issued between two worlds. *)
Definition issued (w w' : World) (rs : list Request) : Prop :=
  requests w' = (requests w ++ rs)%list.

(** The request recorded by [sendRequest]. *)
Definition requestOf (url : string) (apiKey : option string) : Request :=
  {| req_url := url; req_authorization := bearer apiKey; req_stream := false |}.

(** The error raised by [sendRequest]. *)
Definition fetchFailed : Thrown := ErrorObject "Error" fetchFailedMessage.



(** The request recorded by the download of the table. *)
Definition downloadRequest (ctx : GetResourceContext) : Request :=
  {| req_url := downloadUrl (gc_catalogConfig ctx) (gc_resourceId ctx) "csv";
     req_authorization := bearer (gc_secrets ctx !! "apiKey");
     req_stream := true |}.

(** The file the table is written to. *)
Definition destFileOf (env : Env) (ctx : GetResourceContext) : string :=
  path_join env (gc_tmpDir ctx)
    (Js.show (part_tableId (resourceIdParts (gc_resourceId ctx))) ++ ".csv").

(** A computation only adds requests to those already issued. *)
Definition appends {A} (c : Eff A) : Prop :=
  forall w, exists rs, issued w (snd (c w)) rs.

(** The error raised by the fetcher around the message of its cause. *)
Definition downloadFailed (cause : Thrown) : Thrown :=
  ErrorObject "Error" (retrievalFailurePhrase ++ ": " ++ messageOrUnknown cause).

(** The errors thrown inside the fetcher on an accepted status other than
    200. *)
Definition csvStatusError (st : Z) : Thrown :=
  ErrorObject "Error"
    (retrievalFailurePhrase ++ " (erreur HTTP " ++ Js.ofNumber st ++ ")").


(** What a request of the fetcher that fails ends on: the error of the
    transport, the value the client rejects with on a status it does not
    accept, or the error that the check after the request raises on an
    accepted status. *)
Definition failureCause (env : Env) (raised : Z -> Thrown) (reply : Reply) : Thrown :=
  match reply with
  | Rejects err => err
  | Replies st body =>
      if validateStatus st then raised st
      else rejection env LibNodeAxios st body
  end.

(** ** A scripted remote service, as the test suite sets one up *)

(** The answer of a remote service that knows the listed addresses and
    refuses every other one. *)
Definition answer (routes : list (string * Reply)) (url : string) : Reply :=
  match find (fun route => String.eqb (fst route) url) routes with
  | Some route => snd route
  | None => Rejects (ErrorObject "Error" "Nock: No match for request")
  end.

(** The error of the stock client for a status it does not accept. *)
Definition statusCodeError (st : Z) : Thrown :=
  ErrorObject "AxiosError" ("Request failed with status code " ++ Js.ofNumber st).

(** An environment around scripted routes: clients that reject with the
    error of the stock client, a disk that accepts every file, a clock
    that advances by 300 ms per reading, and stand-ins for the library
    functions. *)
Definition scripted (routes : list (string * Reply)) : Env :=
  {| http := fun url _ => answer routes url;
     rejection := fun _ st _ => statusCodeError st;
     disk := fun _ => None;
     now := fun n => 300 * Z.of_nat n;
     path_join := fun dir file => dir ++ "/" ++ file;
     url_href := fun text => Some text;
     stringify := fun _ => "{}" |}.

(** ** The payloads of the test suite *)

Definition exampleConfig : GristConfig :=
  {| cfg_url := "https://example.com"; cfg_apiKey := Some "abcde" |}.

Definition exampleSecrets : gmap string string := {["apiKey" := "abcde"]}.

Definition exampleContext (currentFolderId : option string) : ListContext :=
  {| lc_catalogConfig := exampleConfig; lc_secrets := exampleSecrets;
     lc_currentFolderId := currentFolderId |}.

Definition orgPersonal : Organization :=
  {| org_name := "Personal"; org_id := 1; org_domain := "org-1";
     org_owner := Some {| owner_name := "UserTest" |} |}.

Definition orgTest : Organization :=
  {| org_name := "orgaTest"; org_id := 2; org_domain := "org-2";
     org_owner := None |}.

Definition workspaceOne : Workspace :=
  mkWorkspace "wsp 1" 1
    (Some [mkDocument "doc1" "d1" None; mkDocument "doc2" "d2" None])
    (Some orgPersonal).

Definition documentOne : Document :=
  mkDocument "doc1" "d1" (Some (mkWorkspace "wsp 1" 1 None (Some orgPersonal))).

(** The remote service of the listing tests. *)
Definition exampleRemote : Env :=
  scripted
    [("https://example.com/api/orgs",
      Replies 200 (POrganizations [orgPersonal; orgTest]));
     ("https://example.com/api/orgs/1/workspaces",
      Replies 200 (PWorkspaces [workspaceOne; mkWorkspace "wsp 2" 2 (Some []) None]));
     ("https://example.com/api/orgs/1", Replies 200 (POrganization orgPersonal));
     ("https://example.com/api/workspaces/1", Replies 200 (PWorkspace workspaceOne));
     ("https://example.com/o/org-1/api/docs/d1/tables",
      Replies 200 (PTables [{| table_id := "Table1" |}; {| table_id := "Table2" |}]));
     ("https://example.com/o/org-1/api/docs/d1", Replies 200 (PDocument documentOne));
     ("https://example.com/api/orgs/3/workspaces",
      Replies 500 (POther "{ error: 'Internal Server Error' }"))].

(** The fetcher tests: one table with two fields, downloaded from a
    self-hosted service. *)
Definition downloadContext (resourceId : string) : GetResourceContext :=
  {| gc_catalogConfig := exampleConfig; gc_secrets := exampleSecrets;
     gc_resourceId := resourceId; gc_tmpDir := "/tmp" |}.

Definition fieldOne : Field :=
  {| field_name := "field1"; field_description := Some "Field 1";
     field_type := None; field_dialect := None |}.

Definition fieldTwo : Field :=
  {| field_name := "field2"; field_description := Some "Field 2";
     field_type := Some "array"; field_dialect := None |}.

Definition schemaOne : TableSchema :=
  {| ts_name := Some "table1"; ts_title := Some "Table1";
     ts_schema := Some {| schema_fields := Some [fieldOne; fieldTwo] |} |}.

(** A schema body without title, named in lower case as the service
    names its tables. *)
Definition schemaUntitled : TableSchema :=
  {| ts_name := Some "table1"; ts_title := None; ts_schema := None |}.

Definition downloadRemote : Env :=
  scripted
    [("https://example.com/o/domain1/api/docs/doc1/download/csv?tableId=table1",
      Replies 200 (PStream ["csv,data,here"]));
     ("https://example.com/o/domain1/api/docs/doc1/download/table-schema?tableId=table1",
      Replies 200 (PTableSchema schemaOne));
     ("https://example.com/o/domain1/api/docs/doc1/download/csv?tableId=undefined",
      Replies 200 (PStream ["a,b"]));
     ("https://example.com/o/domain1/api/docs/doc1/download/table-schema?tableId=undefined",
      Replies 200 (PTableSchema schemaUntitled));
     ("https://example.com/o/domain1/api/docs/doc2/download/csv?tableId=Table1",
      Replies 200 (PStream ["a,b"]));
     ("https://example.com/o/domain1/api/docs/doc2/download/table-schema?tableId=Table1",
      Replies 200 (PTableSchema schemaUntitled));
     ("https://example.com/o/domain1/api/docs/doc3/download/csv?tableId=table1",
      Replies 500 (POther "{ error: 'Internal Server Error' }"));
     ("https://example.com/o/domain1/api/docs/doc4/download/csv?tableId=table1",
      Rejects (ErrorObject "AxiosError" "connect ECONNREFUSED 10.0.0.7:8484"))].

(** An array field with a name of two words and a dialect of its own. *)
Definition fieldTotal : Field :=
  {| field_name := "Total Amount"; field_description := None;
     field_type := Some "array";
     field_dialect := Some {| delimiter := Some ";" |} |}.

(** A host that submits a newly typed key. *)
Definition newKeyContext : PrepareContext :=
  {| pc_catalogConfig := exampleConfig;
     pc_capabilities := capabilities;
     pc_secrets := ∅ |}.

(** The options under which the keys of a schema are made. *)
Definition keyOptions : SlugOptions :=
  {| lower := true; strict := true; replacement := "_" |}.


(** Identifiers as the service issues them: the domain of an organization
    and the identifier of a document hold no slash. *)
Definition slashFree (s : string) : bool := negb (Js.includes s "/").

Definition wellFormedWorkspace (ws : Workspace) : bool :=
  match ws_org ws with
  | Some org => slashFree (org_domain org)
  | None => true
  end &&
  match ws_docs ws with
  | Some docs => forallb (fun doc => slashFree (doc_id doc)) docs
  | None => true
  end.

Definition gristIdentifiers (env : Env) : Prop :=
  forall url authorization st ws,
    http env url authorization = Replies st (PWorkspace ws) ->
    wellFormedWorkspace ws = true.

(** The next call of the host: the same context with an emitted
    identifier as [currentFolderId]. *)
Definition withFolder (ctx : ListContext) (id : string) : ListContext :=
  {| lc_catalogConfig := lc_catalogConfig ctx; lc_secrets := lc_secrets ctx;
     lc_currentFolderId := Some id |}.

(** Well-formed identifiers, checked on one scripted route. *)
Definition wellFormedRoute (route : string * Reply) : bool :=
  match snd route with
  | Replies _ (PWorkspace ws) => wellFormedWorkspace ws
  | _ => true
  end.

(** ** Vocabulary of the further properties *)

(** A request that carries the key and is not streamed. *)
Definition plainRequest (key : option string) (rq : Request) : Prop :=
  req_authorization rq = bearer key /\ req_stream rq = false.

(** A computation of the navigator is quiet: it issues at most [n]
    requests, all plain, touches neither the files, the host log nor the
    clock, and leaves the console alone when it returns. *)
Definition quiet (key : option string) (n : nat) {A} (c : Eff A) : Prop :=
  forall w, exists rs,
    issued w (snd (c w)) rs /\
    (List.length rs <= n)%nat /\
    Forall (plainRequest key) rs /\
    files (snd (c w)) = files w /\
    journal (snd (c w)) = journal w /\
    ticks (snd (c w)) = ticks w /\
    (forall a, fst (c w) = Returns a -> console (snd (c w)) = console w).

(** The number of breadcrumbs of a level. *)
Definition depth (l : Level) : nat :=
  match l with
  | Root => 0
  | OrganizationLevel => 1
  | WorkspaceLevel => 2
  | DocumentLevel => 3
  end.

(** The request recorded by the schema lookup of the fetcher. *)
Definition schemaRequest (ctx : GetResourceContext) : Request :=
  {| req_url := downloadUrl (gc_catalogConfig ctx) (gc_resourceId ctx) "table-schema";
     req_authorization := bearer (gc_secrets ctx !! "apiKey");
     req_stream := false |}.

(** The number of bytes of a body received in chunks. *)
Definition totalBytes (chunks : list string) : Z :=
  Z.of_nat (String.length (String.concat "" chunks)).

(** The progress reports of the [data] listener. *)
Definition isProgress (key : string) (lo hi : Z) (c : LogCall) : Prop :=
  exists n, c = LogProgress key n None /\ lo <= n <= hi.

(** A service that lists one table for an identifier without pipe. *)
Definition pipelessRemote : Env :=
  scripted
    [("https://example.com/o/abc/apiundefined/tables",
      Replies 200 (PTables [{| table_id := "Table1" |}]));
     ("https://example.com/o/empty/apiundefined/tables", Replies 200 (PTables []));
     ("https://example.com/o/empty/apiundefined", Replies 200 (PDocument documentOne))].

(** A service that answers the download and then refuses the schema, and
    one whose answer has status 204. *)
Definition halfRemote : Env :=
  scripted
    [("https://example.com/o/domain1/api/docs/doc1/download/csv?tableId=table1",
      Replies 200 (PStream ["csv,"; "data,"; "here"]));
     ("https://example.com/o/domain1/api/docs/doc1/download/table-schema?tableId=table1",
      Replies 404 (POther "{}"));
     ("https://example.com/api/orgs", Replies 204 (POther ""))].

(** The environment of [downloadRemote] with a disk that is full: the
    file is opened and nothing more gets through. *)
Definition fullDisk : Env :=
  {| http := http downloadRemote;
     rejection := rejection downloadRemote;
     disk := fun _ =>
       Some {| df_error := ErrorObject "Error" "ENOSPC: no space left on device, write";
               df_left := Some "" |};
     now := now downloadRemote;
     path_join := path_join downloadRemote;
     url_href := url_href downloadRemote;
     stringify := stringify downloadRemote |}.

(** A host that keeps the placeholder and holds the key as a secret. *)
Definition keptKeyContext : PrepareContext :=
  {| pc_catalogConfig :=
       {| cfg_url := "https://example.com"; cfg_apiKey := Some "********" |};
     pc_capabilities := capabilities;
     pc_secrets := {["apiKey" := "abcde"; "other" := "kept"]} |}.

(** A host without base URL. *)
Definition noUrlContext : PrepareContext :=
  {| pc_catalogConfig := {| cfg_url := ""; cfg_apiKey := Some "abcde" |};
     pc_capabilities := capabilities;
     pc_secrets := ∅ |}.

(** The environment of [exampleRemote] with a URL parser that accepts
    nothing. *)
Definition noParse : Env :=
  {| http := http exampleRemote;
     rejection := rejection exampleRemote;
     disk := disk exampleRemote;
     now := now exampleRemote;
     path_join := path_join exampleRemote;
     url_href := fun _ => None;
     stringify := stringify exampleRemote |}.



(** ** Checks of the string primitives *)

Example includes_orgs : Js.includes "/orgs/12" "/orgs/" = true.
Proof. reflexivity. Qed.

Example indexOf_tables :
  Js.indexOf "https://example.com/o/org-1/api/docs/d1/tables" "/tables" = 39.
Proof. reflexivity. Qed.

Example indexOf_missing : Js.indexOf "abc" "/tables" = -1.
Proof. reflexivity. Qed.

Example substring_strip : Js.substring "/docs/d1" 6 None = "d1".
Proof. reflexivity. Qed.

Example substring_swap : Js.substring "abcdef" 4 (Some 1) = "bcd".
Proof. reflexivity. Qed.

Example substring_negative : Js.substring "abcdef" 0 (Some (-1)) = "".
Proof. reflexivity. Qed.

Example split_three : Js.splitLimit "a|b|c|d" "|" 3 = ["a"; "b"; "c"].
Proof. reflexivity. Qed.

Example split_short : Js.splitLimit "a|b" "|" 3 = ["a"; "b"].
Proof. reflexivity. Qed.

Example split_empty : Js.split "" "|" = [""].
Proof. reflexivity. Qed.

Example ofNumber_samples :
  (Js.ofNumber 0, Js.ofNumber 42, Js.ofNumber (-7)) = ("0", "42", "-7").
Proof. reflexivity. Qed.

(** ** The scenarios of the test suite, run on the embedding *)

Example list_workspaces_scenario :
  fst (listResources exampleRemote (exampleContext (Some "/orgs/1")) emptyWorld) =
  Returns {| count := 2;
             results := [mkFolder "/workspaces/1" "wsp 1";
                         mkFolder "/workspaces/2" "wsp 2"];
             path := [mkFolder "/orgs/1" "Personal"] |}.
Proof. vm_compute. reflexivity. Qed.

Example list_workspaces_requests :
  map req_url
    (requests (snd (listResources exampleRemote (exampleContext (Some "/orgs/1"))
                      emptyWorld))) =
  ["https://example.com/api/orgs/1/workspaces"; "https://example.com/api/orgs/1"].
Proof. vm_compute. reflexivity. Qed.

Example list_documents_scenario :
  fst (listResources exampleRemote (exampleContext (Some "/workspaces/1")) emptyWorld) =
  Returns {| count := 2;
             results := [mkFolder "org-1|/docs/d1" "doc1";
                         mkFolder "org-1|/docs/d2" "doc2"];
             path := [mkFolder "/orgs/1" "Personal";
                      mkFolder "/workspaces/1" "wsp 1"] |}.
Proof. vm_compute. reflexivity. Qed.

Example list_tables_requests :
  map req_url
    (requests (snd (listResources exampleRemote (exampleContext (Some "org-1|/docs/d1"))
                      emptyWorld))) =
  ["https://example.com/o/org-1/api/docs/d1/tables";
   "https://example.com/o/org-1/api/docs/d1"].
Proof. vm_compute. reflexivity. Qed.

Example list_failure_scenario :
  fst (listResources exampleRemote (exampleContext (Some "/orgs/3")) emptyWorld) =
  Throws (ErrorObject "Error" fetchFailedMessage) /\
  console (snd (listResources exampleRemote (exampleContext (Some "/orgs/3")) emptyWorld)) =
  ["Error while fetching data: Request failed with status code 500"].
Proof. split; vm_compute; reflexivity. Qed.

Example get_resource_scenario :
  fst (getResource downloadRemote (downloadContext "domain1|doc1|table1") emptyWorld) =
  Returns {| res_id := Some "table1";
             res_title := Some "Table1";
             res_format := "csv";
             res_mimeType := "text/csv";
             res_origin := "https://example.com/o/domain1/doc1";
             res_size := None;
             res_filePath := "/tmp/table1.csv";
             res_schema :=
               Some [{| key := "field1"; sf_title := "field1";
                        sf_description := Some "Field 1"; separator := None |};
                     {| key := "field2"; sf_title := "field2";
                        sf_description := Some "Field 2"; separator := Some ", " |}] |} /\
  files (snd (getResource downloadRemote (downloadContext "domain1|doc1|table1")
                emptyWorld)) !! "/tmp/table1.csv" = Some "csv,data,here".
Proof. split; vm_compute; reflexivity. Qed.

(** On the hosted service the organization segment is left out. *)
Example get_resource_hosted_request :
  map req_url
    (requests
       (snd (getResource (scripted [])
               {| gc_catalogConfig :=
                    {| cfg_url := "https://docs.getgrist.com"; cfg_apiKey := None |};
                  gc_secrets := exampleSecrets;
                  gc_resourceId := "domain1|doc1|table1";
                  gc_tmpDir := "/tmp" |}
               emptyWorld))) =
  ["https://docs.getgrist.com/api/docs/doc1/download/csv?tableId=table1"].
Proof. vm_compute. reflexivity. Qed.

Example list_tables_hosted_request :
  map req_url
    (requests
       (snd (listResources (scripted [])
               {| lc_catalogConfig :=
                    {| cfg_url := "https://docs.getgrist.com"; cfg_apiKey := None |};
                  lc_secrets := exampleSecrets;
                  lc_currentFolderId := Some "org-1|/docs/d1" |}
               emptyWorld))) =
  ["https://docs.getgrist.com/api/docs/d1/tables"].
Proof. vm_compute. reflexivity. Qed.

(** ** Facts about the string primitives *)

Module JsFacts.
Import Js.

Lemma chars_append (s t : string) : chars (s ++ t) = (chars s ++ chars t)%list.
Proof. induction s as [|c s IH]; simpl; [reflexivity | now rewrite IH]. Qed.

Lemma append_empty_r (s : string) : s ++ "" = s.
Proof. induction s as [|c s IH]; simpl; [reflexivity | now rewrite IH]. Qed.

Lemma length_append (s t : string) :
  String.length (s ++ t) = (String.length s + String.length t)%nat.
Proof. induction s as [|c s IH]; simpl; [reflexivity | now rewrite IH]. Qed.

Lemma lacks_cons (c a : ascii) (s : string) :
  lacks c (String a s) <-> a <> c /\ lacks c s.
Proof. unfold lacks; simpl; tauto. Qed.

Lemma lacks_append (c : ascii) (s t : string) :
  lacks c (s ++ t) <-> lacks c s /\ lacks c t.
Proof.
  unfold lacks. rewrite chars_append.
  split.
  - intros H; split; intros Hin; apply H, in_or_app; auto.
  - intros [Hs Ht] Hin. apply in_app_or in Hin. tauto.
Qed.

Lemma startsWith_append (p s : string) : startsWith (p ++ s) p = true.
Proof.
  induction p as [|c p IH]; simpl; [now destruct s |].
  now rewrite Ascii.eqb_refl, IH.
Qed.

Lemma includes_prefixed (p s : string) : includes (p ++ s) p = true.
Proof.
  destruct p as [|c p].
  - now destruct s.
  - change (includes (String c p ++ s) (String c p))
      with (startsWith (String c p ++ s) (String c p) || includes (p ++ s) (String c p)).
    now rewrite startsWith_append.
Qed.

Lemma startsWith_refl (s : string) : startsWith s s = true.
Proof.
  induction s as [|c s IH]; simpl; [reflexivity |].
  now rewrite Ascii.eqb_refl, IH.
Qed.



(** A match shows every character of the pattern. *)
Lemma startsWith_chars (s p : string) :
  startsWith s p = true -> incl (chars p) (chars s).
Proof.
  revert s. induction p as [|c p IH]; intros s H; simpl.
  - intros x [].
  - destruct s as [|a s]; simpl in H; [discriminate |].
    apply andb_true_iff in H as [Hc Hp].
    apply Ascii.eqb_eq in Hc. subst a.
    intros x [Hx | Hx]; [now left | right; now apply (IH s)].
Qed.

Lemma includes_chars (s p : string) :
  includes s p = true -> incl (chars p) (chars s).
Proof.
  induction s as [|a s IH]; intros H.
  - simpl in H. rewrite orb_false_r in H. now apply startsWith_chars.
  - simpl in H. apply orb_true_iff in H as [H | H].
    + now apply startsWith_chars.
    + intros x Hx. right. now apply IH.
Qed.

(** A pattern is not found in a string that lacks one of its characters. *)
Lemma includes_lacks (c : ascii) (s p : string) :
  In c (chars p) -> lacks c s -> includes s p = false.
Proof.
  intros Hp Hs. destruct (includes s p) eqn:E; [| reflexivity].
  exfalso. apply Hs. now apply (includes_chars _ _ E).
Qed.

(** A pattern does not start inside a stretch that lacks its first
    character. *)
Lemma includes_skip (c : ascii) (p s t : string) :
  lacks c s -> includes (s ++ t) (String c p) = includes t (String c p).
Proof.
  induction s as [|a s IH]; intros H; [reflexivity |].
  apply lacks_cons in H as [Hne Hs].
  change (includes (String a s ++ t) (String c p))
    with (startsWith (String a (s ++ t)) (String c p) || includes (s ++ t) (String c p)).
  simpl startsWith.
  destruct (Ascii.eqb_spec a c) as [-> | _]; [contradiction |].
  simpl. now apply IH.
Qed.

Lemma drop_append (p s : string) : drop (String.length p) (p ++ s) = s.
Proof. induction p as [|c p IH]; simpl; [now destruct s | exact IH]. Qed.

Lemma take_all (s : string) : take (String.length s) s = s.
Proof. induction s as [|c s IH]; simpl; [reflexivity | now rewrite IH]. Qed.

(** [(p + s).substring(p.length)] is [s]. *)
Lemma substring_after (p s : string) :
  substring (p ++ s) (Z.of_nat (String.length p)) None = s.
Proof.
  unfold substring. rewrite length_append.
  set (lp := String.length p). set (ls := String.length s).
  replace (Z.min (Z.max (Z.of_nat lp) 0) (Z.of_nat (lp + ls))) with (Z.of_nat lp) by lia.
  replace (Z.min (Z.of_nat lp) (Z.of_nat (lp + ls))) with (Z.of_nat lp) by lia.
  replace (Z.max (Z.of_nat lp) (Z.of_nat (lp + ls))) with (Z.of_nat (lp + ls)) by lia.
  replace (Z.to_nat (Z.of_nat (lp + ls) - Z.of_nat lp)) with ls by lia.
  rewrite Nat2Z.id. unfold lp, ls. now rewrite drop_append, take_all.
Qed.

(** A string without separator is its only piece. *)
Lemma split_lacks (s : string) (sep : ascii) :
  lacks sep s -> split s sep = [s].
Proof.
  induction s as [|c s IH]; intros H; [reflexivity |].
  apply lacks_cons in H as [Hne Hs]. simpl.
  destruct (Ascii.eqb_spec c sep) as [-> | _]; [contradiction |].
  now rewrite (IH Hs).
Qed.

(** The first piece ends at the first separator. *)
Lemma split_append (s t : string) (sep : ascii) :
  lacks sep s -> split (s ++ String sep t) sep = s :: split t sep.
Proof.
  induction s as [|c s IH]; intros H.
  - simpl. now rewrite Ascii.eqb_refl.
  - apply lacks_cons in H as [Hne Hs]. simpl.
    destruct (Ascii.eqb_spec c sep) as [-> | _]; [contradiction |].
    now rewrite (IH Hs).
Qed.

(** The alphabet of a printed integer. *)
Lemma uint_chars (d : Decimal.uint) :
  incl (chars (NilEmpty.string_of_uint d)) (chars "0123456789").
Proof.
  induction d; simpl; intros x Hx;
    try (destruct Hx as [<- | Hx]; [simpl; tauto | now apply IHd]).
  destruct Hx.
Qed.

Lemma ofNumber_chars (n : Z) :
  incl (chars (ofNumber n)) (chars "-0123456789").
Proof.
  assert (U : forall d, incl (chars (NilZero.string_of_uint d)) (chars "-0123456789")).
  { intros d x Hx. right.
    destruct d; [simpl in Hx; destruct Hx as [<- | []]; simpl; tauto | ..];
      exact (uint_chars _ _ Hx). }
  unfold ofNumber. destruct (Z.to_int n) as [d | d].
  - apply U.
  - intros x [<- | Hx]; [now left | exact (U d x Hx)].
Qed.

Lemma ofNumber_lacks (c : ascii) (n : Z) :
  ~ In c (chars "-0123456789") -> lacks c (ofNumber n).
Proof. intros H Hin. apply H. exact (ofNumber_chars n c Hin). Qed.

Lemma truthy_nonempty (s : string) : s <> "" -> truthy (Some s) = true.
Proof.
  intros H. simpl. destruct (String.eqb_spec s ""); [contradiction | reflexivity].
Qed.

End JsFacts.

(** ** Running the effects *)

Lemma bind_returns {A B} (c : Eff A) (k : A -> Eff B) (w w' : World) (b : B) :
  bind c k w = (Returns b, w') ->
  exists a w1, c w = (Returns a, w1) /\ k a w1 = (Returns b, w').
Proof.
  unfold bind. destruct (c w) as [[a | e |] w1]; intros H;
    [eauto | discriminate | discriminate].
Qed.

(** The two ways [sendRequest] ends. *)
Lemma sendRequest_ok (env : Env) (url : string) (k : option string)
  (w : World) (body : Payload) :
  http env url (bearer k) = Replies 200 body ->
  sendRequest env url k w = (Returns body, addRequest (requestOf url k) w).
Proof.
  intros H. unfold sendRequest, tryCatch, bind, axios. rewrite H. reflexivity.
Qed.

Lemma sendRequest_failing (env : Env) (url : string) (k : option string)
  (w : World) :
  failing env url (bearer k) ->
  exists line,
    sendRequest env url k w =
    (Throws fetchFailed, addConsole line (addRequest (requestOf url k) w)).
Proof.
  unfold failing, sendRequest, tryCatch, bind, axios.
  destruct (http env url (bearer k)) as [err | st body]; intros H.
  - eexists. reflexivity.
  - destruct (validateStatus st); [| eexists; reflexivity].
    simpl. destruct (Z.eqb_spec st 200) as [-> | _]; [contradiction |].
    eexists. reflexivity.
Qed.

Lemma sendRequest_cases (env : Env) (url : string) (k : option string)
  (w : World) :
  (exists body, http env url (bearer k) = Replies 200 body /\
     sendRequest env url k w = (Returns body, addRequest (requestOf url k) w))
  \/ (failing env url (bearer k) /\
      exists line,
        sendRequest env url k w =
        (Throws fetchFailed, addConsole line (addRequest (requestOf url k) w))).
Proof.
  destruct (http env url (bearer k)) as [err | st body] eqn:E.
  - right. assert (F : failing env url (bearer k)) by (unfold failing; now rewrite E).
    split; [exact F | now apply sendRequest_failing].
  - destruct (Z.eq_dec st 200) as [-> | Hne].
    + left. exists body. split; [reflexivity | now apply sendRequest_ok].
    + right. assert (F : failing env url (bearer k)) by (unfold failing; now rewrite E).
      split; [exact F | now apply sendRequest_failing].
Qed.

Lemma sendRequest_returns (env : Env) (url : string) (k : option string)
  (w w' : World) (body : Payload) :
  sendRequest env url k w = (Returns body, w') ->
  http env url (bearer k) = Replies 200 body /\
  w' = addRequest (requestOf url k) w.
Proof.
  intros H. destruct (sendRequest_cases env url k w) as [(b & E & R) | (_ & line & R)];
    rewrite R in H; [| discriminate].
  injection H as <- <-. now split.
Qed.

(** ** The navigator, branch by branch *)

Lemma listOrganizations_returns (env : Env) (ctx : ListContext)
  (w w' : World) (r : ListResult) :
  listOrganizations env ctx w = (Returns r, w') ->
  exists orgs,
    http env (cfg_url (lc_catalogConfig ctx) ++ "/api/orgs")
         (bearer (lc_secrets ctx !! "apiKey")) = Replies 200 (POrganizations orgs) /\
    r = {| count := List.length orgs; results := map organizationFolder orgs;
           path := [] |}.
Proof.
  unfold listOrganizations. intros H.
  apply bind_returns in H as (body & w1 & Hs & H).
  apply sendRequest_returns in Hs as [Hh _].
  apply bind_returns in H as (orgs & w2 & Ha & H).
  destruct body as [l | | | | | | | |]; try discriminate. injection Ha as <- <-.
  injection H as <- _. exists l. split; [exact Hh |].
  now rewrite length_map.
Qed.

Lemma organizationFolder_spec (o : Organization) :
  entry_id (organizationFolder o) = "/orgs/" ++ Js.ofNumber (org_id o) /\
  entry_type (organizationFolder o) = folder /\
  (org_name o = "Personal" ->
   forall U, org_owner o = Some {| owner_name := U |} ->
   entry_title (organizationFolder o) = "Personal (@" ++ U ++ ")") /\
  (org_name o <> "Personal" -> entry_title (organizationFolder o) = org_name o).
Proof.
  unfold organizationFolder. repeat split; simpl.
  - intros Hn U Ho. rewrite Hn, Ho. reflexivity.
  - intros Hn. destruct (String.eqb_spec (org_name o) "Personal"); [contradiction |].
    apply JsFacts.append_empty_r.
Qed.

(** C9. Root listing: without a current folder, the listing that returns
    has an empty breadcrumb path and, for the organizations the remote
    service answered, one folder each, in order, whose id is exactly
    [/orgs/{id}]; an organization named "Personal" with owner name [U] is
    titled "Personal (@U)", any organization with another name keeps its
    bare name. *)
Theorem root_listing_folders (env : Env) (ctx : ListContext) (w w' : World)
  (r : ListResult) :
  Js.truthy (lc_currentFolderId ctx) = false ->
  listResources env ctx w = (Returns r, w') ->
  path r = [] /\
  exists orgs,
    http env (cfg_url (lc_catalogConfig ctx) ++ "/api/orgs")
         (bearer (lc_secrets ctx !! "apiKey")) = Replies 200 (POrganizations orgs) /\
    count r = List.length orgs /\
    Forall2
      (fun o e =>
         entry_id e = "/orgs/" ++ Js.ofNumber (org_id o) /\
         entry_type e = folder /\
         (org_name o = "Personal" ->
          forall U, org_owner o = Some {| owner_name := U |} ->
          entry_title e = "Personal (@" ++ U ++ ")") /\
         (org_name o <> "Personal" -> entry_title e = org_name o))
      orgs (results r).
Proof.
  intros Hroot H. unfold listResources, dispatch in H. rewrite Hroot in H.
  simpl in H. apply listOrganizations_returns in H as (orgs & Hh & ->).
  split; [reflexivity |]. exists orgs. split; [exact Hh |].
  split; [reflexivity |]. clear Hh. simpl results.
  induction orgs as [|o orgs IH]; simpl map; constructor.
  - apply organizationFolder_spec.
  - exact IH.
Qed.

Lemma root_listing_folders_witness :
  let r := {| count := 2;
              results := [mkFolder "/orgs/1" "Personal (@UserTest)";
                          mkFolder "/orgs/2" "orgaTest"];
              path := [] |} in
  fst (listResources exampleRemote (exampleContext None) emptyWorld) = Returns r /\
  path r = [] /\
  exists orgs,
    http exampleRemote "https://example.com/api/orgs" "Bearer abcde"
      = Replies 200 (POrganizations orgs) /\
    count r = List.length orgs /\
    Forall2
      (fun o e =>
         entry_id e = "/orgs/" ++ Js.ofNumber (org_id o) /\
         entry_type e = folder /\
         (org_name o = "Personal" ->
          forall U, org_owner o = Some {| owner_name := U |} ->
          entry_title e = "Personal (@" ++ U ++ ")") /\
         (org_name o <> "Personal" -> entry_title e = org_name o))
      orgs (results r).
Proof.
  intros r. split; [vm_compute; reflexivity |].
  apply (root_listing_folders exampleRemote (exampleContext None) emptyWorld
           (w' := snd (listResources exampleRemote (exampleContext None) emptyWorld))).
  - reflexivity.
  - vm_compute. reflexivity.
Defined.

Lemma listWorkspaces_returns (env : Env) (ctx : ListContext) (s : string)
  (w w' : World) (r : ListResult) :
  listWorkspaces env ctx s w = (Returns r, w') ->
  let url := cfg_url (lc_catalogConfig ctx) ++ "/api" ++ s ++ "/workspaces" in
  exists wss o,
    http env url (bearer (lc_secrets ctx !! "apiKey")) = Replies 200 (PWorkspaces wss) /\
    http env (Js.substring url 0 (Some (Js.indexOf url "/workspaces")))
         (bearer (lc_secrets ctx !! "apiKey")) = Replies 200 (POrganization o) /\
    r = {| count := List.length wss; results := map workspaceFolder wss;
           path := [mkFolder s (org_name o)] |}.
Proof.
  intros H url. unfold listWorkspaces in H.
  apply bind_returns in H as (body & w1 & Hs & H).
  apply sendRequest_returns in Hs as [Hh _].
  apply bind_returns in H as (wss & w2 & Ha & H).
  destruct body as [| | l | | | | | |]; try discriminate. injection Ha as <- <-.
  apply bind_returns in H as (body' & w3 & Hs' & H).
  apply sendRequest_returns in Hs' as [Hh' _].
  apply bind_returns in H as (o & w4 & Ha' & H).
  destruct body' as [| o' | | | | | | |]; try discriminate. injection Ha' as <- <-.
  injection H as <- _. exists l, o'. repeat split; try assumption.
  now rewrite length_map.
Qed.

Lemma listDocuments_returns (env : Env) (ctx : ListContext) (s : string)
  (w w' : World) (r : ListResult) :
  listDocuments env ctx s w = (Returns r, w') ->
  exists ws,
    http env (cfg_url (lc_catalogConfig ctx) ++ "/api" ++ s)
         (bearer (lc_secrets ctx !! "apiKey")) = Replies 200 (PWorkspace ws) /\
    results r =
      match ws_docs ws with
      | Some docs => map (documentFolder (option_map org_domain (ws_org ws))) docs
      | None => []
      end /\
    count r = List.length (results r) /\
    path r =
      [mkFolder ("/orgs/" ++ showNumber (option_map org_id (ws_org ws)))
                (orEmpty (option_map org_name (ws_org ws)));
       mkFolder s (ws_name ws)].
Proof.
  unfold listDocuments. intros H.
  apply bind_returns in H as (body & w1 & Hs & H).
  apply sendRequest_returns in Hs as [Hh _].
  apply bind_returns in H as (ws & w2 & Ha & H).
  destruct body as [| | | ws' | | | | |]; try discriminate. injection Ha as <- <-.
  injection H as <- _. exists ws'. repeat split; assumption.
Qed.

Lemma listTables_returns (env : Env) (ctx : ListContext) (s : string)
  (w w' : World) (r : ListResult) :
  listTables env ctx s w = (Returns r, w') ->
  let url := tablesUrl (lc_catalogConfig ctx) s in
  exists tables doc,
    http env url (bearer (lc_secrets ctx !! "apiKey")) = Replies 200 (PTables tables) /\
    http env (Js.substring url 0 (Some (Js.indexOf url "/tables")))
         (bearer (lc_secrets ctx !! "apiKey")) = Replies 200 (PDocument doc) /\
    results r =
      match snd (folderIdParts s) with
      | Some docUrl => map (tableResource (fst (folderIdParts s)) docUrl) tables
      | None => []
      end /\
    count r = List.length (results r) /\
    path r =
      (let workspace := doc_workspace doc in
       let org := match workspace with Some x => ws_org x | None => None end in
       [mkFolder ("/orgs/" ++ showNumber (option_map org_id org))
                 (orEmpty (option_map org_name org));
        mkFolder ("/workspaces/" ++ showNumber (option_map ws_id workspace))
                 (orEmpty (option_map ws_name workspace));
        mkFolder s (doc_name doc)]).
Proof.
  intros H url. unfold listTables in H.
  destruct (folderIdParts s) as [domain docUrl] eqn:Parts.
  apply bind_returns in H as (body & w1 & Hs & H).
  apply sendRequest_returns in Hs as [Hh _].
  apply bind_returns in H as (tables & w2 & Ha & H).
  destruct body as [| | | | l | | | |]; try discriminate. injection Ha as <- <-.
  apply bind_returns in H as (folders & w3 & Hf & H).
  apply bind_returns in H as (body' & w4 & Hs' & H).
  apply sendRequest_returns in Hs' as [Hh' _].
  apply bind_returns in H as (doc & w5 & Ha' & H).
  destruct body' as [| | | | | d | | |]; try discriminate. injection Ha' as <- <-.
  injection H as <- _. exists l, d. simpl.
  repeat split; try assumption.
  destruct docUrl as [u |]; [now injection Hf as <- _ |].
  destruct l; [now injection Hf as <- _ | discriminate].
Qed.

(** ** Where an emitted identifier is routed *)

Lemma dispatch_organizationFolder (o : Organization) :
  dispatch (Some (entry_id (organizationFolder o))) = OrganizationLevel.
Proof.
  unfold dispatch, organizationFolder, mkFolder. cbn [entry_id Js.show].
  rewrite (JsFacts.includes_prefixed "/orgs/"). reflexivity.
Qed.

Lemma dispatch_workspaceFolder (ws : Workspace) :
  dispatch (Some (entry_id (workspaceFolder ws))) = WorkspaceLevel.
Proof.
  unfold dispatch, workspaceFolder, mkFolder. cbn [entry_id Js.show].
  rewrite (JsFacts.includes_prefixed "/workspaces/").
  rewrite (@JsFacts.includes_lacks "g" _ "/orgs/").
  - reflexivity.
  - simpl. tauto.
  - apply JsFacts.lacks_append. split.
    + unfold Js.lacks. simpl. intros H.
      repeat (destruct H as [H | H]; [discriminate |]). exact H.
    + apply JsFacts.ofNumber_lacks. simpl. intros H.
      repeat (destruct H as [H | H]; [discriminate |]). exact H.
Qed.

(** The identifier of a document folder is routed by its markers only. *)
Lemma dispatch_document_iff (s : string) :
  s <> "" ->
  dispatch (Some s) = DocumentLevel <->
  Js.includes s "/orgs/" = false /\ Js.includes s "/workspaces/" = false.
Proof.
  intros Hne. unfold dispatch. rewrite (JsFacts.truthy_nonempty Hne). simpl.
  destruct (Js.includes s "/orgs/"), (Js.includes s "/workspaces/");
    split; intros H; try discriminate; try tauto; destruct H; discriminate.
Qed.

Lemma document_id_nonempty (domain docId : string) :
  domain ++ "|/docs/" ++ docId <> "".
Proof. destruct domain; discriminate. Qed.

(** Neither marker fits in an identifier whose components have no
    slash: its two slashes are five characters apart and enclose "docs". *)
Lemma document_id_no_marker (domain docId marker : string) :
  Js.lacks "/" domain -> Js.lacks "/" docId ->
  marker = "orgs/" \/ marker = "workspaces/" ->
  Js.includes (domain ++ "|/docs/" ++ docId) (String "/" marker) = false.
Proof.
  intros Hd Hi Hm.
  rewrite (JsFacts.includes_skip _ _ Hd).
  assert (Tail : Js.includes docId (String "/" marker) = false).
  { apply (@JsFacts.includes_lacks "/"); [now left | exact Hi]. }
  assert (Start : Js.startsWith docId marker = false).
  { destruct (Js.startsWith docId marker) eqn:E; [| reflexivity].
    exfalso. apply Hi. apply (JsFacts.startsWith_chars _ _ E).
    destruct Hm as [-> | ->]; simpl; tauto. }
  destruct Hm as [-> | ->]; simpl; simpl in Tail; rewrite Start, Tail; reflexivity.
Qed.

Lemma dispatch_documentFolder (domain docId : string) :
  Js.lacks "/" domain -> Js.lacks "/" docId ->
  dispatch (Some (domain ++ "|/docs/" ++ docId)) = DocumentLevel.
Proof.
  intros Hd Hi. apply dispatch_document_iff; [apply document_id_nonempty |].
  split; apply document_id_no_marker; auto.
Qed.

(** The split of a document-level identifier gives back its two parts. *)
Lemma folderIdParts_document (domain docId : string) :
  Js.lacks "|" domain -> Js.lacks "|" docId ->
  folderIdParts (domain ++ "|/docs/" ++ docId) = (domain, Some ("/docs/" ++ docId)).
Proof.
  intros Hd Hi. unfold folderIdParts, Js.splitLimit.
  change (domain ++ "|/docs/" ++ docId) with (domain ++ String "|" ("/docs/" ++ docId)).
  rewrite (JsFacts.split_append _ Hd).
  rewrite JsFacts.split_lacks; [reflexivity |].
  apply (JsFacts.lacks_append "|" "/docs/" docId). split; [| exact Hi].
  unfold Js.lacks. simpl. intros H.
  repeat (destruct H as [H | H]; [discriminate |]). exact H.
Qed.

(** A string without the one-character pattern lacks the character. *)
Lemma slashFree_lacks (s : string) : slashFree s = true -> Js.lacks "/" s.
Proof.
  unfold slashFree, Js.lacks. intros H Hin.
  apply negb_true_iff in H.
  induction s as [|a s IH]; simpl in Hin; [exact Hin |].
  simpl in H. apply orb_false_iff in H as [Ha Hs].
  destruct Hin as [-> | Hin]; [| now apply IH].
  rewrite Ascii.eqb_refl in Ha. destruct s; discriminate.
Qed.

(** Scripted routes that carry well-formed workspaces make a service that
    issues well-formed identifiers. *)
Lemma scripted_gristIdentifiers (routes : list (string * Reply)) :
  forallb wellFormedRoute routes = true -> gristIdentifiers (scripted routes).
Proof.
  intros H url authorization st ws. cbn [http scripted]. unfold answer.
  destruct (find _ routes) as [route |] eqn:F; [| discriminate].
  apply find_some in F as [Hin _]. intros E.
  pose proof (proj1 (forallb_forall _ _) H route Hin) as W.
  unfold wellFormedRoute in W. now rewrite E in W.
Qed.

(** The branch that [listResources] runs is the one of the level. *)
Lemma listResources_routed (env : Env) (ctx : ListContext) (id : string) :
  listResources env (withFolder ctx id) =
  match dispatch (Some id) with
  | Root => listOrganizations env (withFolder ctx id)
  | OrganizationLevel => listWorkspaces env (withFolder ctx id) id
  | WorkspaceLevel => listDocuments env (withFolder ctx id) id
  | DocumentLevel => listTables env (withFolder ctx id) id
  end.
Proof. reflexivity. Qed.

(** C1. Round trip of folder identifiers: an identifier emitted by the
    root listing has the form [/orgs/{id}] and, fed back unmodified as
    [currentFolderId], makes [listResources] list the workspaces; one
    emitted by the listing of an organization has the form
    [/workspaces/{id}] and makes it list the documents; one emitted by
    the listing of a workspace has the form [{domain}|/docs/{docId}] and
    makes it list the tables, which are resources.  The domains and
    document identifiers are those the service issues: they hold no
    slash. *)
Theorem folder_id_round_trip (env : Env) (ctx : ListContext) (w w' : World)
  (r : ListResult) (e : Entry) :
  gristIdentifiers env ->
  listResources env ctx w = (Returns r, w') ->
  In e (results r) ->
  let next := withFolder ctx (entry_id e) in
  match dispatch (lc_currentFolderId ctx) with
  | Root =>
      (exists id, entry_id e = "/orgs/" ++ id) /\
      entry_type e = folder /\
      dispatch (Some (entry_id e)) = OrganizationLevel /\
      listResources env next = listWorkspaces env next (entry_id e)
  | OrganizationLevel =>
      (exists id, entry_id e = "/workspaces/" ++ id) /\
      entry_type e = folder /\
      dispatch (Some (entry_id e)) = WorkspaceLevel /\
      listResources env next = listDocuments env next (entry_id e)
  | WorkspaceLevel =>
      (exists domain docId, entry_id e = domain ++ "|/docs/" ++ docId) /\
      entry_type e = folder /\
      dispatch (Some (entry_id e)) = DocumentLevel /\
      listResources env next = listTables env next (entry_id e)
  | DocumentLevel => entry_type e = resource
  end.
Proof.
  intros G H Hin next. subst next. unfold listResources in H.
  destruct (dispatch (lc_currentFolderId ctx)).
  - apply listOrganizations_returns in H as (orgs & _ & ->).
    simpl in Hin. apply in_map_iff in Hin as (o & <- & _).
    assert (D := dispatch_organizationFolder o).
    split; [eexists; reflexivity |]. split; [reflexivity |].
    split; [exact D |]. now rewrite listResources_routed, D.
  - apply listWorkspaces_returns in H as (wss & o & _ & _ & ->).
    simpl in Hin. apply in_map_iff in Hin as (ws & <- & _).
    assert (D := dispatch_workspaceFolder ws).
    split; [eexists; reflexivity |]. split; [reflexivity |].
    split; [exact D |]. now rewrite listResources_routed, D.
  - apply listDocuments_returns in H as (ws & Hws & Hres & _).
    apply G in Hws. unfold wellFormedWorkspace in Hws.
    apply andb_true_iff in Hws as [Hdomain Hdocs].
    rewrite Hres in Hin. destruct (ws_docs ws) as [docs |]; [| destruct Hin].
    apply in_map_iff in Hin as (doc & <- & Hdoc).
    unfold documentFolder, mkFolder. cbn [entry_id entry_type].
    assert (D : dispatch (Some (Js.show (option_map org_domain (ws_org ws)) ++
                                "|/docs/" ++ doc_id doc)) = DocumentLevel).
    { apply dispatch_documentFolder.
      - destruct (ws_org ws) as [org |]; cbn [option_map Js.show];
          now apply slashFree_lacks.
      - apply slashFree_lacks.
        exact (proj1 (forallb_forall _ _) Hdocs doc Hdoc). }
    split; [eexists _, _; reflexivity |]. split; [reflexivity |].
    split; [exact D |]. now rewrite listResources_routed, D.
  - apply listTables_returns in H as (tables & doc & _ & _ & Hres & _).
    rewrite Hres in Hin. destruct (snd (folderIdParts _)); [| destruct Hin].
    apply in_map_iff in Hin as (t & <- & _). reflexivity.
Qed.

Lemma folder_id_round_trip_witness :
  let ctx := exampleContext (Some "/workspaces/1") in
  let e := mkFolder "org-1|/docs/d1" "doc1" in
  let next := withFolder ctx (entry_id e) in
  (exists domain docId, entry_id e = domain ++ "|/docs/" ++ docId) /\
  entry_type e = folder /\
  dispatch (Some (entry_id e)) = DocumentLevel /\
  listResources exampleRemote next = listTables exampleRemote next (entry_id e).
Proof.
  intros ctx e.
  apply (@folder_id_round_trip exampleRemote ctx emptyWorld
           (snd (listResources exampleRemote ctx emptyWorld))
           {| count := 2;
              results := [mkFolder "org-1|/docs/d1" "doc1";
                          mkFolder "org-1|/docs/d2" "doc2"];
              path := [mkFolder "/orgs/1" "Personal";
                       mkFolder "/workspaces/1" "wsp 1"] |} e).
  - apply scripted_gristIdentifiers. vm_compute. reflexivity.
  - vm_compute. reflexivity.
  - simpl. left. reflexivity.
Defined.

(** ** The table listing *)

Lemma substring_docs (docId : string) :
  Js.substring ("/docs/" ++ docId) 6 None = docId.
Proof. exact (JsFacts.substring_after "/docs/" docId). Qed.

Lemma tablesUrl_document (cfg : GristConfig) (domain docId : string) :
  Js.lacks "|" domain -> Js.lacks "|" docId ->
  tablesUrl cfg (domain ++ "|/docs/" ++ docId) =
  if onGristDomain cfg
  then cfg_url cfg ++ "/api/docs/" ++ docId ++ "/tables"
  else cfg_url cfg ++ "/o/" ++ domain ++ "/api/docs/" ++ docId ++ "/tables".
Proof.
  intros Hd Hi. unfold tablesUrl. rewrite (folderIdParts_document Hd Hi).
  reflexivity.
Qed.



(** ** Failures of the remote service during a listing *)

Section Surfacing.

Variable env : Env.












End Surfacing.



(** ** The fetcher, step by step *)

Section Fetcher.

Variable env : Env.

(** The [data] listener never fails; it only writes to the host log and
    reads the clock. *)
Lemma onData_run (tableId : option string) (chunks : list string)
  (downloaded lastLogged : Z) (w : World) :
  exists n w1,
    onData env tableId chunks downloaded lastLogged w = (Returns n, w1) /\
    requests w1 = requests w /\ console w1 = console w /\ files w1 = files w.
Proof.
  revert downloaded lastLogged w.
  induction chunks as [|chunk rest IH]; intros downloaded lastLogged w.
  - exists downloaded, w. now repeat split.
  - simpl. unfold bind at 1. unfold dateNow at 1.
    destruct (logInterval <? now env (ticks w) - lastLogged).
    + unfold bind at 1. unfold logCall at 1. unfold bind at 1. unfold dateNow at 1.
      destruct (IH (downloaded + Z.of_nat (String.length chunk))
                   (now env (ticks (addJournal
                      (LogProgress ("Downloading " ++ Js.show tableId)
                         (downloaded + Z.of_nat (String.length chunk)) None) (tick w))))
                   (tick (addJournal
                      (LogProgress ("Downloading " ++ Js.show tableId)
                         (downloaded + Z.of_nat (String.length chunk)) None) (tick w))))
        as (n & w1 & E & R & C & F).
      exists n, w1. now repeat split.
    + destruct (IH (downloaded + Z.of_nat (String.length chunk)) lastLogged (tick w))
        as (n & w1 & E & R & C & F).
      exists n, w1. now repeat split.
Qed.

(** The ways [getMetadataOnFields] ends on a typed answer. *)
Lemma getMetadataOnFields_ok (ctx : GetResourceContext) (w : World)
  (data : TableSchema) :
  http env (downloadUrl (gc_catalogConfig ctx) (gc_resourceId ctx) "table-schema")
       (bearer (gc_secrets ctx !! "apiKey")) = Replies 200 (PTableSchema data) ->
  exists w', getMetadataOnFields env ctx w = (Returns (resourceOfSchema ctx data), w').
Proof.
  intros H. unfold getMetadataOnFields, bind, logCall, axios. rewrite H.
  simpl. eexists. reflexivity.
Qed.


Lemma getMetadataOnFields_returns (ctx : GetResourceContext) (w w' : World)
  (r : Resource) :
  getMetadataOnFields env ctx w = (Returns r, w') ->
  exists data,
    http env (downloadUrl (gc_catalogConfig ctx) (gc_resourceId ctx) "table-schema")
         (bearer (gc_secrets ctx !! "apiKey")) = Replies 200 (PTableSchema data) /\
    r = resourceOfSchema ctx data.
Proof.
  unfold getMetadataOnFields, bind, logCall, axios.
  destruct (http env _ _) as [err | st body]; [discriminate |].
  destruct (validateStatus st); [| discriminate].
  simpl. destruct (Z.eqb_spec st 200) as [-> | _]; simpl; [| discriminate].
  destruct body; simpl; try discriminate.
  intros [= <- _]. eexists. split; reflexivity.
Qed.

Ltac run_onData :=
  match goal with
  | |- context [onData env ?t ?c ?d ?l ?w] =>
      let n := fresh "n" in
      let w1 := fresh "w" in
      let E := fresh "E" in
      destruct (onData_run t c d l w) as (n & w1 & E & _ & _ & _); rewrite E
  end.

(** A returned resource comes from two answers with status 200 and a
    disk that took the file. *)
Lemma getResource_returns (ctx : GetResourceContext) (w w' : World) (r : Resource) :
  getResource env ctx w = (Returns r, w') ->
  exists chunks data,
    http env (req_url (downloadRequest ctx)) (req_authorization (downloadRequest ctx))
      = Replies 200 (PStream chunks) /\
    disk env (destFileOf env ctx) = None /\
    http env (downloadUrl (gc_catalogConfig ctx) (gc_resourceId ctx) "table-schema")
         (bearer (gc_secrets ctx !! "apiKey")) = Replies 200 (PTableSchema data) /\
    r = withFilePath (resourceOfSchema ctx data) (destFileOf env ctx).
Proof.
  unfold getResource, tryCatch.
  match goal with |- context [match ?c w with _ => _ end] =>
    destruct (c w) as [[a | e |] w1] eqn:E end;
    [| unfold bind, logCall, consoleError, throw; discriminate | discriminate].
  intros [= -> ->].
  apply bind_returns in E as ([] & w2 & _ & E).
  apply bind_returns in E as (res & w3 & Hax & E).
  unfold axios in Hax. simpl in Hax.
  destruct (http env _ _) as [err | st body] eqn:Hdl; [discriminate |].
  destruct (validateStatus st); [| discriminate].
  injection Hax as <- _.
  apply bind_returns in E as ([] & w4 & Hst & E). cbn [status data] in *.
  destruct (Z.eqb_spec st 200) as [-> | _]; simpl in Hst;
    [| unfold bind, consoleError, throw in Hst; discriminate].
  apply bind_returns in E as ([] & w5 & _ & E).
  apply bind_returns in E as (lastLogged & w6 & _ & E).
  apply bind_returns in E as (chunks & w7 & Hchunks & E).
  destruct body as [| | | | | | | chunks' |]; try discriminate.
  injection Hchunks as <- _.
  apply bind_returns in E as (downloaded & w8 & _ & E).
  apply bind_returns in E as ([] & w9 & Hpipe & E).
  unfold pipeToFile in Hpipe.
  destruct (disk env _) eqn:Hdisk; [discriminate |].
  apply bind_returns in E as ([] & w10 & _ & E).
  apply bind_returns in E as (resource & w11 & Hmeta & E).
  apply getMetadataOnFields_returns in Hmeta as (data & Hschema & ->).
  injection E as <- _.
  exists chunks', data. repeat split; assumption.
Qed.

(** Two answers with status 200 and a disk that takes the file are
    enough for a resource to be returned. *)
Lemma getResource_runs (ctx : GetResourceContext) (w : World)
  (chunks : list string) (data : TableSchema) :
  http env (req_url (downloadRequest ctx)) (req_authorization (downloadRequest ctx))
    = Replies 200 (PStream chunks) ->
  disk env (destFileOf env ctx) = None ->
  http env (downloadUrl (gc_catalogConfig ctx) (gc_resourceId ctx) "table-schema")
       (bearer (gc_secrets ctx !! "apiKey")) = Replies 200 (PTableSchema data) ->
  exists w',
    getResource env ctx w =
    (Returns (withFilePath (resourceOfSchema ctx data) (destFileOf env ctx)), w').
Proof.
  intros Hdl Hdisk Hschema. simpl in Hdl.
  unfold getResource, tryCatch. fold (destFileOf env ctx).
  unfold bind at 1. unfold logCall at 1.
  unfold bind at 1. unfold axios at 1. rewrite Hdl.
  unfold bind at 1. simpl.
  unfold bind at 1. unfold logCall at 1.
  unfold bind at 1. unfold dateNow at 1.
  unfold bind at 1. simpl.
  unfold bind at 1. run_onData.
  unfold bind at 1. unfold pipeToFile at 1. rewrite Hdisk.
  unfold bind at 1. unfold logCall at 1.
  unfold bind at 1.
  match goal with |- context [getMetadataOnFields env ctx ?w0] =>
    destruct (getMetadataOnFields_ok ctx w0 Hschema) as (w' & ->) end.
  eexists. reflexivity.
Qed.
End Fetcher.

Section FetcherFailures.

Variable env : Env.


(** A download request that fails, whichever way. *)
Lemma getResource_download_failing (ctx : GetResourceContext) (w : World) :
  failing env (req_url (downloadRequest ctx)) (req_authorization (downloadRequest ctx)) ->
  exists w',
    getResource env ctx w =
    (Throws (downloadFailed
               (failureCause env csvStatusError
                  (http env (req_url (downloadRequest ctx))
                        (req_authorization (downloadRequest ctx))))), w') /\
    requests w' = (requests w ++ [downloadRequest ctx])%list /\
    files w' = files w.
Proof.
  unfold failing, failureCause. simpl.
  destruct (http env _ _) as [err | st body] eqn:H; intros F.
  - unfold getResource, tryCatch, bind, logCall, axios. rewrite H.
    eexists. split; [reflexivity |]. split; reflexivity.
  - unfold getResource, tryCatch.
    unfold bind at 1. unfold logCall at 1.
    unfold bind at 1. unfold axios at 1. rewrite H.
    destruct (validateStatus st).
    + unfold bind at 1. cbn [status data].
      destruct (Z.eqb_spec st 200) as [-> | _]; [contradiction |].
      cbn [negb]. unfold bind, consoleError, throw, logCall.
      eexists. split; [reflexivity |]. split; reflexivity.
    + unfold bind, consoleError, throw, logCall.
      eexists. split; [reflexivity |]. split; reflexivity.
Qed.




End FetcherFailures.

(** ** Requests are only ever added *)

Section Appending.

Variable env : Env.

Lemma appends_same {A} (c : Eff A) :
  (forall w, requests (snd (c w)) = requests w) -> appends c.
Proof.
  intros H w. exists []. unfold issued. rewrite H. now rewrite app_nil_r.
Qed.

Lemma appends_ret {A} (a : A) : appends (ret a).
Proof. now apply appends_same. Qed.

Lemma appends_throw {A} (e : Thrown) : appends (@throw A e).
Proof. now apply appends_same. Qed.

Lemma appends_illTyped {A} : appends (@illTyped A).
Proof. now apply appends_same. Qed.

Lemma appends_logCall (c : LogCall) : appends (logCall c).
Proof. now apply appends_same. Qed.

Lemma appends_consoleError (line : string) : appends (consoleError line).
Proof. now apply appends_same. Qed.

Lemma appends_dateNow : appends (dateNow env).
Proof. now apply appends_same. Qed.

Lemma appends_pipeToFile (destFile : string) (chunks : list string) :
  appends (pipeToFile env destFile chunks).
Proof.
  apply appends_same. intros w. unfold pipeToFile.
  destruct (disk env destFile) as [[err [written |]] |]; reflexivity.
Qed.

Lemma appends_statSize (destFile : string) : appends (statSize destFile).
Proof.
  apply appends_same. intros w. unfold statSize.
  now destruct (files w !! destFile).
Qed.

Lemma appends_onData (tableId : option string) (chunks : list string)
  (downloaded lastLogged : Z) :
  appends (onData env tableId chunks downloaded lastLogged).
Proof.
  apply appends_same. intros w.
  destruct (onData_run env tableId chunks downloaded lastLogged w)
    as (n & w1 & -> & R & _). exact R.
Qed.

Lemma appends_axios (client : Client) (url authorization : string)
  (stream : bool) :
  appends (axios env client url authorization stream).
Proof.
  intros w. eexists [_]. unfold issued, axios.
  destruct (http env url authorization) as [err | st body];
    [| destruct (validateStatus st)]; reflexivity.
Qed.

Lemma appends_bind {A B} (c : Eff A) (k : A -> Eff B) :
  appends c -> (forall a, appends (k a)) -> appends (bind c k).
Proof.
  intros Hc Hk w. destruct (Hc w) as (rs1 & I1). unfold bind.
  destruct (c w) as [[a | e |] w1]; simpl in *; try (now exists rs1).
  destruct (Hk a w1) as (rs2 & I2). exists (rs1 ++ rs2)%list.
  unfold issued in *. rewrite I2, I1. now rewrite <- app_assoc.
Qed.

Ltac appends_steps :=
  repeat first
    [ apply appends_ret | apply appends_throw | apply appends_illTyped
    | apply appends_logCall | apply appends_consoleError
    | apply appends_dateNow | apply appends_pipeToFile
    | apply appends_statSize | apply appends_onData | apply appends_axios
    | apply appends_bind; [| intro]
    | match goal with
      | |- appends (if ?b then _ else _) => destruct b
      | |- appends (asStream ?p) => destruct p
      | |- appends (asTableSchema ?p) => destruct p
      end ].

(** A [try] block that opens with a request, possibly after a line in
    the host log, shows that request first. *)
Lemma first_request_after_log {A} (l : LogCall) (client : Client)
  (url authorization : string) (stream : bool) (k : Response -> Eff A)
  (h : Thrown -> Eff A) (w : World) :
  (forall res, appends (k res)) -> (forall e, appends (h e)) ->
  exists rest,
    requests (snd (tryCatch (bind (logCall l)
                               (fun _ => bind (axios env client url authorization stream) k))
                     h w)) =
    (requests w ++
     {| req_url := url; req_authorization := authorization; req_stream := stream |}
     :: rest)%list.
Proof.
  intros Hk Hh.
  unfold tryCatch, bind at 1. unfold logCall at 1. unfold bind at 1.
  unfold axios at 1.
  set (w0 := addRequest _ (addJournal l w)).
  assert (R0 : requests w0 = (requests w ++
     [{| req_url := url; req_authorization := authorization; req_stream := stream |}])%list)
    by reflexivity.
  clearbody w0.
  assert (Thrown0 : forall err, exists rest,
            requests (snd (h err w0)) =
            (requests w ++
             {| req_url := url; req_authorization := authorization;
                req_stream := stream |} :: rest)%list).
  { intros err. destruct (Hh err w0) as (rs & I). exists rs. unfold issued in I.
    rewrite I, R0. now rewrite <- app_assoc. }
  destruct (http env url authorization) as [err | st body]; [apply Thrown0 |].
  destruct (validateStatus st); [| apply Thrown0].
  - destruct (Hk {| status := st; data := body |} w0) as (rs & I).
    unfold issued in I.
    destruct (k {| status := st; data := body |} w0) as [[a | e |] w1]; simpl in *.
    + exists rs. rewrite I, R0. now rewrite <- app_assoc.
    + destruct (Hh e w1) as (rs' & I'). unfold issued in I'.
      exists (rs ++ rs')%list. rewrite I', I, R0. now rewrite <- !app_assoc.
    + exists rs. rewrite I, R0. now rewrite <- app_assoc.
Qed.

(** The fetcher opens with the download request. *)
Lemma getResource_first_request (ctx : GetResourceContext) (w : World) :
  exists rest,
    requests (snd (getResource env ctx w)) =
    (requests w ++ downloadRequest ctx :: rest)%list.
Proof.
  unfold getResource, downloadRequest.
  apply first_request_after_log.
  - intros res. appends_steps.
  - intros e. appends_steps.
Qed.

End Appending.

(** ** Resource identifiers *)

(** An identifier of three pipe-free components is split into them. *)
Lemma resourceIdParts_three (domain docId tableId : string) :
  Js.lacks "|" domain -> Js.lacks "|" docId -> Js.lacks "|" tableId ->
  resourceIdParts (domain ++ "|" ++ docId ++ "|" ++ tableId) =
  {| part_domain := Some domain; part_docId := Some docId;
     part_tableId := Some tableId |}.
Proof.
  intros Hd Hi Ht. unfold resourceIdParts, Js.splitLimit.
  change (domain ++ "|" ++ docId ++ "|" ++ tableId)
    with (domain ++ String "|" (docId ++ String "|" tableId)).
  rewrite (JsFacts.split_append _ Hd), (JsFacts.split_append _ Hi),
    (JsFacts.split_lacks Ht).
  reflexivity.
Qed.

(** C5. Download address and origin: for an identifier
    [{domain}|{docId}|{tableId}], the first request of the fetcher is the
    streamed download at
    [{baseUrl}/api/docs/{docId}/download/csv?tableId={tableId}] when the
    base URL contains ".getgrist.com" and at
    [{baseUrl}/o/{domain}/api/docs/{docId}/download/csv?tableId={tableId}]
    otherwise; the origin of a returned resource is [{baseUrl}/{docId}] in
    the first case and [{baseUrl}/o/{domain}/{docId}] in the second. *)
Theorem download_url_and_origin (env : Env) (ctx : GetResourceContext)
  (w : World) (domain docId tableId : string) :
  gc_resourceId ctx = domain ++ "|" ++ docId ++ "|" ++ tableId ->
  Js.lacks "|" domain -> Js.lacks "|" docId -> Js.lacks "|" tableId ->
  let baseUrl := cfg_url (gc_catalogConfig ctx) in
  let url :=
    if Js.includes baseUrl ".getgrist.com"
    then baseUrl ++ "/api/docs/" ++ docId ++ "/download/csv?tableId=" ++ tableId
    else baseUrl ++ "/o/" ++ domain ++ "/api/docs/" ++ docId ++
         "/download/csv?tableId=" ++ tableId in
  let origin :=
    if Js.includes baseUrl ".getgrist.com"
    then baseUrl ++ "/" ++ docId
    else baseUrl ++ "/o/" ++ domain ++ "/" ++ docId in
  (exists rest,
     requests (snd (getResource env ctx w)) =
     (requests w ++
      {| req_url := url;
         req_authorization := bearer (gc_secrets ctx !! "apiKey");
         req_stream := true |} :: rest)%list) /\
  (forall r w', getResource env ctx w = (Returns r, w') -> res_origin r = origin) /\
  (forall r w', getResourceLegacy env ctx w = (Returns r, w') -> res_origin r = origin).
Proof.
  intros Hid Hd Hi Ht baseUrl url origin.
  assert (Hurl : downloadUrl (gc_catalogConfig ctx) (gc_resourceId ctx) "csv" = url).
  { unfold downloadUrl, onGristDomain. rewrite Hid, (resourceIdParts_three Hd Hi Ht).
    reflexivity. }
  assert (Horigin : originOf (gc_catalogConfig ctx) (gc_resourceId ctx) = origin).
  { unfold originOf, onGristDomain. rewrite Hid, (resourceIdParts_three Hd Hi Ht).
    reflexivity. }
  split; [| split].
  - destruct (getResource_first_request env ctx w) as (rest & R).
    exists rest. rewrite R. unfold downloadRequest. now rewrite Hurl.
  - intros r w' H.
    apply getResource_returns in H as (chunks & data & _ & _ & _ & ->).
    exact Horigin.
  - intros r w' H. unfold getResourceLegacy, tryCatch in H.
    match type of H with context [match ?c w with _ => _ end] =>
      destruct (c w) as [[a | e |] w1] eqn:E end;
      [| unfold bind, consoleError, throw in H; discriminate | discriminate].
    injection H as -> ->.
    apply bind_returns in E as (res & w2 & _ & E).
    apply bind_returns in E as ([] & w3 & _ & E).
    apply bind_returns in E as (chunks & w4 & _ & E).
    apply bind_returns in E as ([] & w5 & _ & E).
    apply bind_returns in E as (size & w6 & _ & E).
    injection E as <- _. exact Horigin.
Qed.

Lemma download_url_and_origin_witness :
  let ctx := downloadContext "domain1|doc1|table1" in
  (exists rest,
     requests (snd (getResource downloadRemote ctx emptyWorld)) =
     {| req_url :=
          "https://example.com/o/domain1/api/docs/doc1/download/csv?tableId=table1";
        req_authorization := "Bearer abcde";
        req_stream := true |} :: rest) /\
  (forall r w',
     getResource downloadRemote ctx emptyWorld = (Returns r, w') ->
     res_origin r = "https://example.com/o/domain1/doc1") /\
  (forall r w',
     getResourceLegacy downloadRemote ctx emptyWorld = (Returns r, w') ->
     res_origin r = "https://example.com/o/domain1/doc1") /\
  (exists r, fst (getResource downloadRemote ctx emptyWorld) = Returns r).
Proof.
  intros ctx.
  assert (P : forall s, s = "domain1" \/ s = "doc1" \/ s = "table1" -> Js.lacks "|" s).
  { intros s [-> | [-> | ->]]; unfold Js.lacks; simpl; intros H;
      repeat (destruct H as [H | H]; [discriminate |]); exact H. }
  destruct (@download_url_and_origin downloadRemote ctx emptyWorld
              "domain1" "doc1" "table1") as (A & B & C).
  - reflexivity.
  - apply P; auto.
  - apply P; auto.
  - apply P; auto.
  - split; [exact A |]. split; [exact B |]. split; [exact C |].
    eexists. vm_compute. reflexivity.
Defined.

(** The earlier fetcher returns as soon as the download is answered with
    status 200 and the file is written. *)
Lemma getResourceLegacy_runs (env : Env) (ctx : GetResourceContext) (w : World)
  (chunks : list string) :
  http env (req_url (downloadRequest ctx)) (req_authorization (downloadRequest ctx))
    = Replies 200 (PStream chunks) ->
  disk env (destFileOf env ctx) = None ->
  exists r w',
    getResourceLegacy env ctx w = (Returns r, w') /\
    res_id r = Some (gc_resourceId ctx) /\
    res_title r = part_tableId (resourceIdParts (gc_resourceId ctx)) /\
    res_size r = Some (Z.of_nat (String.length (String.concat "" chunks))).
Proof.
  intros Hdl Hdisk. simpl in Hdl.
  unfold getResourceLegacy, tryCatch. fold (destFileOf env ctx).
  unfold bind, axios, pipeToFile, statSize, asStream, ret. rewrite Hdl.
  change (validateStatus 200) with true.
  cbn [status data]. change (200 =? 200) with true. cbn [negb].
  rewrite Hdisk. cbn [files addFile]. rewrite lookup_insert_eq.
  eexists _, _. split; [reflexivity |]. now repeat split.
Qed.

(** C2 (amended). Parsing of the resource identifier: the identifier is
    split on "|" and its first three pieces are read as domain, docId and
    tableId, a missing piece being [undefined] and any further piece
    being ignored; an identifier of three pipe-free components gives
    exactly these.  The number of pieces is not checked: whenever the
    download and the schema request are answered with status 200 and the
    file is written, a resource is returned. *)
Theorem resource_id_split (env : Env) (ctx : GetResourceContext) (w : World) :
  (let pieces := Js.split (gc_resourceId ctx) "|" in
   let p := resourceIdParts (gc_resourceId ctx) in
   part_domain p = nth_error pieces 0 /\
   part_docId p = nth_error pieces 1 /\
   part_tableId p = nth_error pieces 2) /\
  (forall domain docId tableId,
     gc_resourceId ctx = domain ++ "|" ++ docId ++ "|" ++ tableId ->
     Js.lacks "|" domain -> Js.lacks "|" docId -> Js.lacks "|" tableId ->
     resourceIdParts (gc_resourceId ctx) =
     {| part_domain := Some domain; part_docId := Some docId;
        part_tableId := Some tableId |}) /\
  (forall chunks data,
     http env (req_url (downloadRequest ctx)) (req_authorization (downloadRequest ctx))
       = Replies 200 (PStream chunks) ->
     disk env (destFileOf env ctx) = None ->
     http env (downloadUrl (gc_catalogConfig ctx) (gc_resourceId ctx) "table-schema")
          (bearer (gc_secrets ctx !! "apiKey")) = Replies 200 (PTableSchema data) ->
     exists r w', getResource env ctx w = (Returns r, w')) /\
  (forall chunks,
     http env (req_url (downloadRequest ctx)) (req_authorization (downloadRequest ctx))
       = Replies 200 (PStream chunks) ->
     disk env (destFileOf env ctx) = None ->
     exists r w', getResourceLegacy env ctx w = (Returns r, w')).
Proof.
  split; [| split; [| split]].
  - unfold resourceIdParts, Js.splitLimit. cbn [part_domain part_docId part_tableId].
    destruct (Js.split (gc_resourceId ctx) "|") as [| a [| b [| c l]]]; now repeat split.
  - intros domain docId tableId -> Hd Hi Ht. now apply resourceIdParts_three.
  - intros chunks data Hdl Hdisk Hschema.
    destruct (getResource_runs env ctx w Hdl Hdisk Hschema) as (w' & R).
    eauto.
  - intros chunks Hdl Hdisk.
    destruct (getResourceLegacy_runs env ctx w Hdl Hdisk) as (r & w' & R & _).
    eauto.
Qed.

Lemma resource_id_split_witness :
  let ctx := downloadContext "domain1|doc1" in
  resourceIdParts (gc_resourceId ctx) =
    {| part_domain := Some "domain1"; part_docId := Some "doc1";
       part_tableId := None |} /\
  (exists r w', getResource downloadRemote ctx emptyWorld = (Returns r, w')) /\
  (exists r w', getResourceLegacy downloadRemote ctx emptyWorld = (Returns r, w')).
Proof.
  intros ctx. split; [reflexivity |].
  destruct (resource_id_split downloadRemote ctx emptyWorld) as (_ & _ & A & B).
  split.
  - apply (A ["a,b"] schemaUntitled); reflexivity.
  - apply (B ["a,b"]); reflexivity.
Defined.

(** C2 as stated fails: an identifier of two pieces and one of four are
    both fetched without failure; the fourth piece is ignored. *)
Lemma resource_id_split_counterexample :
  List.length (Js.split "domain1|doc1" "|") = 2%nat /\
  (exists r,
     fst (getResource downloadRemote (downloadContext "domain1|doc1") emptyWorld)
     = Returns r) /\
  List.length (Js.split "domain1|doc1|table1|extra" "|") = 4%nat /\
  (exists r,
     fst (getResource downloadRemote (downloadContext "domain1|doc1|table1|extra")
            emptyWorld) = Returns r /\
     fst (getResource downloadRemote (downloadContext "domain1|doc1|table1")
            emptyWorld) = Returns r).
Proof.
  split; [reflexivity |]. split; [eexists; vm_compute; reflexivity |].
  split; [reflexivity |]. eexists. split; vm_compute; reflexivity.
Qed.

(** ** The resource described by the schema *)


Lemma truthy_false (v : option string) :
  Js.truthy v = false <-> v = None \/ v = Some "".
Proof.
  destruct v as [s |]; simpl.
  - destruct (String.eqb_spec s "") as [-> | Hne]; simpl.
    + split; [intros _; now right | reflexivity].
    + split; [discriminate | intros [H | H]; [discriminate | congruence]].
  - split; [now left | reflexivity].
Qed.


(** ** The slug of a field name *)







Example slugify_two_words : slugify "Total Amount" keyOptions = "total_amount".
Proof. reflexivity. Qed.

Example schemaField_total :
  schemaField fieldTotal =
  {| key := "total_amount"; sf_title := "Total Amount";
     sf_description := None; separator := Some ";" |}.
Proof. reflexivity. Qed.



(** C7 (amended). Identity of the resource: the id of a returned
    resource is the name of the table-schema payload; its title is the
    title of the payload when there is a non-empty one, and falls back to
    the name of the payload when the title is omitted. *)
Theorem resource_identity (env : Env) (ctx : GetResourceContext)
  (w w' : World) (r : Resource) :
  getResource env ctx w = (Returns r, w') ->
  exists data,
    http env (downloadUrl (gc_catalogConfig ctx) (gc_resourceId ctx) "table-schema")
         (bearer (gc_secrets ctx !! "apiKey")) = Replies 200 (PTableSchema data) /\
    res_id r = ts_name data /\
    (forall t, ts_title data = Some t -> t <> "" -> res_title r = Some t) /\
    (ts_title data = None \/ ts_title data = Some "" -> res_title r = ts_name data).
Proof.
  intros H. apply getResource_returns in H as (chunks & data & _ & _ & Hs & ->).
  exists data. split; [exact Hs |]. split; [reflexivity |].
  unfold withFilePath, resourceOfSchema. cbn [res_title]. split.
  - intros t -> Hne. now rewrite (JsFacts.truthy_nonempty Hne).
  - intros Hf. now rewrite (proj2 (truthy_false _) Hf).
Qed.

Lemma resource_identity_witness :
  let ctx := downloadContext "domain1|doc1|table1" in
  exists r,
    fst (getResource downloadRemote ctx emptyWorld) = Returns r /\
    res_id r = Some "table1" /\ res_title r = Some "Table1".
Proof.
  intros ctx.
  exists (withFilePath (resourceOfSchema ctx schemaOne)
            (destFileOf downloadRemote ctx)).
  assert (R : getResource downloadRemote ctx emptyWorld =
              (Returns (withFilePath (resourceOfSchema ctx schemaOne)
                          (destFileOf downloadRemote ctx)),
               snd (getResource downloadRemote ctx emptyWorld)))
    by (vm_compute; reflexivity).
  split; [now rewrite R |].
  destruct (resource_identity _ _ _ R) as (data & Hd & Hi & Ht & _).
  injection Hd as <-. split; [exact Hi |]. apply Ht; [reflexivity | discriminate].
Defined.

(** C7 as stated fails: for the table [Table1], a schema payload named
    [table1] that omits the title gives the title [table1], not the
    [tableId] of the resource identifier. *)
Lemma resource_identity_counterexample :
  let ctx := downloadContext "domain1|doc2|Table1" in
  part_tableId (resourceIdParts (gc_resourceId ctx)) = Some "Table1" /\
  http downloadRemote
    (downloadUrl (gc_catalogConfig ctx) (gc_resourceId ctx) "table-schema")
    (bearer (gc_secrets ctx !! "apiKey")) = Replies 200 (PTableSchema schemaUntitled) /\
  ts_title schemaUntitled = None /\
  exists r,
    fst (getResource downloadRemote ctx emptyWorld) = Returns r /\
    res_title r = Some "table1" /\
    res_title r <> part_tableId (resourceIdParts (gc_resourceId ctx)).
Proof.
  intros ctx. split; [reflexivity |]. split; [reflexivity |]. split; [reflexivity |].
  eexists. split; [vm_compute; reflexivity |]. split; [reflexivity | discriminate].
Qed.

(** ** Failures of the remote service *)





(** ** The stored key *)

(** Both versions of [prepare] return what [storeApiKey] made of their
    arguments. *)
Lemma prepare_returns (env : Env) (ctx : PrepareContext) (w w' : World)
  (r : PrepareContext) :
  prepare env ctx w = (Returns r, w') -> r = storeApiKey ctx.
Proof.
  unfold prepare.
  destruct (String.eqb (cfg_url (pc_catalogConfig (storeApiKey ctx))) "");
    [discriminate |].
  intros H. apply bind_returns in H as ([] & w1 & _ & H). now injection H as <- _.
Qed.

(** The probing version returns as soon as the base URL is set, parses,
    and the probe is answered with a status the client accepts. *)
Lemma prepare_runs (env : Env) (ctx : PrepareContext) (w : World)
  (href : string) (st : Z) (body : Payload) :
  cfg_url (pc_catalogConfig ctx) <> "" ->
  url_href env (cfg_url (pc_catalogConfig ctx) ++ "/api/orgs") = Some href ->
  http env href (bearer (pc_secrets (storeApiKey ctx) !! "apiKey")) = Replies st body ->
  validateStatus st = true ->
  exists w', prepare env ctx w = (Returns (storeApiKey ctx), w').
Proof.
  intros Hurl Hhref Hprobe Hst.
  assert (U : cfg_url (pc_catalogConfig (storeApiKey ctx)) = cfg_url (pc_catalogConfig ctx)).
  { unfold storeApiKey. destruct (cfg_apiKey (pc_catalogConfig ctx)); [| reflexivity].
    destruct (_ && _); [reflexivity |]. destruct (_ && _); reflexivity. }
  unfold prepare. rewrite U.
  destruct (String.eqb_spec (cfg_url (pc_catalogConfig ctx)) ""); [contradiction |].
  unfold bind, tryCatch, newUrl. rewrite Hhref.
  unfold ret, axios. rewrite Hprobe, Hst. eexists. reflexivity.
Qed.

(** C10. Handling of the key by [prepare]: a non-empty key other than
    "********" is stored as the secret and replaced by "********" in the
    returned configuration; an empty key deletes the secret when one
    exists (is set to a non-empty string, as the code tests it); in every
    other case both are returned unchanged.  A non-empty key is never
    returned in the configuration.  Both versions of [prepare] return
    these values. *)
Theorem api_key_redaction (ctx : PrepareContext) :
  let apiKey := cfg_apiKey (pc_catalogConfig ctx) in
  let secret := pc_secrets ctx !! "apiKey" in
  let ctx' := storeApiKey ctx in
  (forall k, apiKey = Some k -> k <> "" -> k <> "********" ->
     pc_secrets ctx' = <["apiKey" := k]> (pc_secrets ctx) /\
     pc_secrets ctx' !! "apiKey" = Some k /\
     cfg_apiKey (pc_catalogConfig ctx') = Some "********") /\
  (apiKey = Some "" -> Js.truthy secret = true ->
     pc_secrets ctx' = delete "apiKey" (pc_secrets ctx) /\
     pc_secrets ctx' !! "apiKey" = None /\
     pc_catalogConfig ctx' = pc_catalogConfig ctx) /\
  (~ (exists k, apiKey = Some k /\ k <> "" /\ k <> "********") ->
   ~ (apiKey = Some "" /\ Js.truthy secret = true) ->
     ctx' = ctx) /\
  (forall k, apiKey = Some k -> k <> "" ->
     cfg_apiKey (pc_catalogConfig ctx') = Some "********") /\
  cfg_url (pc_catalogConfig ctx') = cfg_url (pc_catalogConfig ctx) /\
  prepareOffline ctx = ctx' /\
  (forall env w w' r, prepare env ctx w = (Returns r, w') -> r = ctx').
Proof.
  intros apiKey secret ctx'. subst apiKey secret ctx'.
  unfold storeApiKey, redactedKey.
  destruct ctx as [[url apiKey] caps secrets]. cbn [pc_catalogConfig pc_secrets cfg_apiKey cfg_url].
  split; [| split; [| split; [| split; [| split; [| split]]]]].
  - intros k -> Hne Hred. simpl.
    destruct (String.eqb_spec k ""); [contradiction |].
    destruct (String.eqb_spec k "********"); [contradiction |].
    cbn [negb andb pc_secrets pc_catalogConfig cfg_apiKey].
    split; [reflexivity |]. split; [apply lookup_insert_eq | reflexivity].
  - intros -> Hs. rewrite Hs. simpl.
    split; [reflexivity |]. split; [apply lookup_delete_eq | reflexivity].
  - intros Hnew Hdel. destruct apiKey as [k |]; [| reflexivity].
    simpl. destruct (String.eqb_spec k "") as [-> | Hne].
    + cbn [negb andb]. destruct (Js.truthy (secrets !! "apiKey")) eqn:T; [| reflexivity].
      exfalso. apply Hdel. now split.
    + destruct (String.eqb_spec k "********") as [-> | Hred].
      * cbn [negb andb]. now rewrite andb_false_r.
      * exfalso. apply Hnew. now exists k.
  - intros k -> Hne. simpl.
    destruct (String.eqb_spec k ""); [contradiction |].
    destruct (String.eqb_spec k "********") as [-> | _]; cbn [negb andb].
    + destruct (_ && _); reflexivity.
    + reflexivity.
  - destruct apiKey as [k |]; [| reflexivity].
    destruct (_ && _); [reflexivity |]. destruct (_ && _); reflexivity.
  - reflexivity.
  - intros env w w' r H. now apply prepare_returns in H.
Qed.

Lemma api_key_redaction_witness :
  pc_secrets (storeApiKey newKeyContext) !! "apiKey" = Some "abcde" /\
  cfg_apiKey (pc_catalogConfig (storeApiKey newKeyContext)) = Some "********" /\
  exists w',
    prepare exampleRemote newKeyContext emptyWorld =
    (Returns (storeApiKey newKeyContext), w').
Proof.
  destruct (api_key_redaction newKeyContext) as (A & _).
  destruct (A "abcde") as (_ & B & C); [reflexivity | discriminate | discriminate |].
  split; [exact B |]. split; [exact C |].
  apply (@prepare_runs exampleRemote newKeyContext emptyWorld
           "https://example.com/api/orgs" 200 (POrganizations [orgPersonal; orgTest]));
    [discriminate | reflexivity | reflexivity | reflexivity].
Defined.

(** ** More on the string primitives: the first occurrence of a marker *)

Module JsMore.
Import Js.

(** A pattern that lacks [c] does not match across an occurrence of [c]. *)
Lemma startsWith_inside (c : ascii) (q s t : string) :
  lacks c q -> startsWith (s ++ String c t) q = true -> startsWith s q = true.
Proof.
  revert s. induction q as [|x q IH]; intros s Hq H; [now destruct s |].
  apply JsFacts.lacks_cons in Hq as [Hx Hq].
  destruct s as [|a s]; simpl in H |- *.
  - apply andb_true_iff in H as [H _]. apply Ascii.eqb_eq in H. congruence.
  - apply andb_true_iff in H as [Ha H]. rewrite Ha. simpl. now apply IH.
Qed.

(** A marker whose first character occurs only once is first found, in a
    string that ends with it and does not contain it earlier, at the
    end. *)
Lemma indexOf_appended (c : ascii) (p s : string) :
  lacks c p -> includes s (String c p) = false ->
  indexOf (s ++ String c p) (String c p) = Z.of_nat (String.length s).
Proof.
  intros Hp. induction s as [|a s IH]; intros H.
  - simpl. now rewrite Ascii.eqb_refl, JsFacts.startsWith_refl.
  - change (includes (String a s) (String c p))
      with (startsWith (String a s) (String c p) || includes s (String c p)) in H.
    apply orb_false_iff in H as [Hs Hi].
    change (indexOf (String a s ++ String c p) (String c p))
      with (if startsWith (String a (s ++ String c p)) (String c p) then 0
            else let i := indexOf (s ++ String c p) (String c p) in
                 if i <? 0 then -1 else i + 1).
    destruct (startsWith (String a (s ++ String c p)) (String c p)) eqn:E.
    + exfalso. simpl in E, Hs. apply andb_true_iff in E as [Ea E].
      rewrite Ea in Hs. simpl in Hs.
      rewrite (@startsWith_inside c p s p Hp E) in Hs. discriminate.
    + cbv zeta. rewrite (IH Hi).
      destruct (Z.ltb_spec (Z.of_nat (String.length s)) 0); [lia |].
      simpl String.length. lia.
Qed.

Lemma take_append (s t : string) : take (String.length s) (s ++ t) = s.
Proof. induction s as [|c s IH]; simpl; [now destruct t | now rewrite IH]. Qed.

(** [(s + t).substring(0, s.length)] is [s]. *)
Lemma substring_before (s t : string) :
  substring (s ++ t) 0 (Some (Z.of_nat (String.length s))) = s.
Proof.
  unfold substring. rewrite JsFacts.length_append.
  set (ls := String.length s). set (lt := String.length t).
  replace (Z.min (Z.max 0 0) (Z.of_nat (ls + lt))) with 0 by lia.
  replace (Z.min (Z.max (Z.of_nat ls) 0) (Z.of_nat (ls + lt))) with (Z.of_nat ls) by lia.
  replace (Z.min 0 (Z.of_nat ls)) with 0 by lia.
  replace (Z.max 0 (Z.of_nat ls)) with (Z.of_nat ls) by lia.
  rewrite Z.sub_0_r, Nat2Z.id. simpl drop. apply take_append.
Qed.

(** [url.substring(0, url.indexOf(marker))] on a URL that ends with the
    marker and does not contain it earlier gives the URL without it. *)
Lemma strip_marker (c : ascii) (p s : string) :
  lacks c p -> includes s (String c p) = false ->
  substring (s ++ String c p) 0 (Some (indexOf (s ++ String c p) (String c p))) = s.
Proof.
  intros Hp Hs. rewrite (@indexOf_appended c p s Hp Hs). apply substring_before.
Qed.

Lemma append_assoc (a b c : string) : (a ++ b) ++ c = a ++ b ++ c.
Proof. induction a as [|x a IH]; simpl; [reflexivity | now rewrite IH]. Qed.

Lemma length_concat_cons (a : string) (l : list string) :
  String.length (String.concat "" (a :: l)) =
  (String.length a + String.length (String.concat "" l))%nat.
Proof.
  destruct l as [|b l].
  - simpl. lia.
  - change (String.concat "" (a :: b :: l))
      with (a ++ ("" ++ String.concat "" (b :: l))).
    rewrite JsFacts.length_append. reflexivity.
Qed.

End JsMore.

(** ** The listings of an organization and of a workspace *)






(** Shape of every listing: the listing that returns counts its entries,
    has as many breadcrumbs as the level of the listed identifier is
    deep (none at the root, one for an organization, two for a workspace,
    three for a document), all of them folders, the last one being the
    listed identifier; below the document level every entry is a
    folder. *)
Theorem listing_shape (env : Env) (ctx : ListContext) (w w' : World)
  (r : ListResult) :
  listResources env ctx w = (Returns r, w') ->
  let level := dispatch (lc_currentFolderId ctx) in
  count r = List.length (results r) /\
  List.length (path r) = depth level /\
  Forall (fun crumb => entry_type crumb = folder /\ entry_format crumb = None) (path r) /\
  (level <> Root ->
   option_map entry_id (last (path r)) = lc_currentFolderId ctx) /\
  (level <> DocumentLevel ->
   Forall (fun e => entry_type e = folder /\ entry_format e = None) (results r)).
Proof.
  intros H level. subst level. unfold listResources in H.
  unfold dispatch in *.
  destruct (lc_currentFolderId ctx) as [s |] eqn:Hid; cbn [Js.show] in *.
  2: { simpl in *. apply listOrganizations_returns in H as (orgs & _ & ->).
       cbn [count results path]. rewrite length_map.
       repeat split; try constructor; try congruence.
       intros _. apply List.Forall_forall. intros e Hin.
       apply in_map_iff in Hin as (o & <- & _). now split. }
  destruct (negb (Js.truthy (Some s))).
  { apply listOrganizations_returns in H as (orgs & _ & ->).
    cbn [count results path]. rewrite length_map.
    repeat split; try constructor; try congruence.
    intros _. apply List.Forall_forall. intros e Hin.
    apply in_map_iff in Hin as (o & <- & _). now split. }
  destruct (Js.includes s "/orgs/").
  { apply listWorkspaces_returns in H as (wss & o & _ & _ & ->).
    cbn [count results path]. rewrite length_map.
    split; [reflexivity |]. split; [reflexivity |].
    split; [repeat constructor |]. split; [reflexivity |].
    intros _. apply List.Forall_forall. intros e Hin.
    apply in_map_iff in Hin as (x & <- & _). now split. }
  destruct (Js.includes s "/workspaces/").
  { apply listDocuments_returns in H as (ws & _ & Hres & Hcount & Hpath).
    rewrite Hpath. split; [exact Hcount |]. split; [reflexivity |].
    split; [repeat constructor |]. split; [reflexivity |].
    intros _. rewrite Hres. destruct (ws_docs ws); [| constructor].
    apply List.Forall_forall. intros e Hin.
    apply in_map_iff in Hin as (x & <- & _). now split. }
  apply listTables_returns in H as (tables & doc & _ & _ & Hres & Hcount & Hpath).
  rewrite Hpath. split; [exact Hcount |]. split; [reflexivity |].
  split; [repeat constructor |]. split; [reflexivity |]. congruence.
Qed.

Lemma listing_shape_witness :
  let ctx := exampleContext (Some "org-1|/docs/d1") in
  exists r w',
    listResources exampleRemote ctx emptyWorld = (Returns r, w') /\
    count r = List.length (results r) /\
    List.length (path r) = 3%nat /\
    option_map entry_id (last (path r)) = Some "org-1|/docs/d1".
Proof.
  intros ctx.
  pose (run := listResources exampleRemote ctx emptyWorld).
  assert (R : listResources exampleRemote ctx emptyWorld =
              (Returns
                 {| count := 2;
                    results :=
                      [{| entry_id := "org-1|d1|Table1"; entry_title := "Table1";
                          entry_type := resource; entry_format := Some "csv" |};
                       {| entry_id := "org-1|d1|Table2"; entry_title := "Table2";
                          entry_type := resource; entry_format := Some "csv" |}];
                    path := [mkFolder "/orgs/1" "Personal";
                             mkFolder "/workspaces/1" "wsp 1";
                             mkFolder "org-1|/docs/d1" "doc1"] |}, snd run))
    by (vm_compute; reflexivity).
  destruct (listing_shape _ _ _ R) as (A & B & _ & C & _).
  eexists _, (snd run). split; [exact R |]. split; [exact A |].
  split; [exact B |]. apply C. discriminate.
Defined.

(** ** The requests of a listing *)

Section Quiet.

Variable env : Env.
Variable key : option string.

Lemma quiet_weaken {A} (n m : nat) (c : Eff A) :
  (n <= m)%nat -> quiet key n c -> quiet key m c.
Proof.
  intros Hle Hc w. destruct (Hc w) as (rs & I & L & F & R).
  exists rs. split; [exact I |]. split; [lia |]. now split.
Qed.

Lemma quiet_pure {A} (c : Eff A) :
  (forall w, snd (c w) = w) -> quiet key 0 c.
Proof.
  intros H w. exists []. rewrite H. unfold issued. rewrite app_nil_r.
  repeat split; auto.
Qed.

Lemma quiet_sendRequest (url : string) : quiet key 1 (sendRequest env url key).
Proof.
  intros w. exists [requestOf url key].
  destruct (sendRequest_cases env url key w) as [(b & E & R) | (F & line & R)];
    rewrite R; unfold issued; cbn [fst snd].
  - repeat split; auto. constructor; [now split | constructor].
  - repeat split; auto; [constructor; [now split | constructor] | discriminate].
Qed.

Lemma quiet_bind {A B} (n m : nat) (c : Eff A) (k : A -> Eff B) :
  quiet key n c -> (forall a, quiet key m (k a)) -> quiet key (n + m) (bind c k).
Proof.
  intros Hc Hk w. destruct (Hc w) as (rs1 & I1 & L1 & P1 & F1 & J1 & T1 & C1).
  unfold bind. destruct (c w) as [[a | e |] w1] eqn:E; cbn [fst snd] in *.
  - destruct (Hk a w1) as (rs2 & I2 & L2 & P2 & F2 & J2 & T2 & C2).
    exists (rs1 ++ rs2)%list. unfold issued in *.
    split; [rewrite I2, I1; now rewrite <- app_assoc |].
    split; [rewrite length_app; lia |].
    split; [now apply Forall_app |].
    split; [congruence |]. split; [congruence |]. split; [congruence |].
    intros b Hb. rewrite (C2 b Hb). now apply (C1 a).
  - exists rs1. repeat split; auto; [lia | discriminate].
  - exists rs1. repeat split; auto; [lia | discriminate].
Qed.

Ltac quiet_cast :=
  match goal with
  | |- quiet _ 0 (?f ?p) => apply quiet_pure; intros ?; destruct p; reflexivity
  end.

Lemma quiet_listResources (ctx : ListContext) :
  lc_secrets ctx !! "apiKey" = key ->
  quiet key 2 (listResources env ctx).
Proof.
  intros Hk. unfold listResources. destruct (dispatch (lc_currentFolderId ctx)).
  - apply (@quiet_weaken _ (1 + (0 + 0))); [lia |]. unfold listOrganizations.
    rewrite Hk.
    apply quiet_bind; [apply quiet_sendRequest |]. intros body.
    apply quiet_bind; [quiet_cast |]. intros res. now apply quiet_pure.
  - apply (@quiet_weaken _ (1 + (0 + (1 + (0 + 0))))); [lia |]. unfold listWorkspaces.
    rewrite Hk.
    apply quiet_bind; [apply quiet_sendRequest |]. intros body.
    apply quiet_bind; [quiet_cast |]. intros res.
    apply quiet_bind; [apply quiet_sendRequest |]. intros body'.
    apply quiet_bind; [quiet_cast |]. intros resPath. now apply quiet_pure.
  - apply (@quiet_weaken _ (1 + (0 + 0))); [lia |]. unfold listDocuments.
    rewrite Hk.
    apply quiet_bind; [apply quiet_sendRequest |]. intros body.
    apply quiet_bind; [quiet_cast |]. intros res. now apply quiet_pure.
  - apply (@quiet_weaken _ (1 + (0 + (0 + (1 + (0 + 0)))))); [lia |].
    unfold listTables.
    destruct (folderIdParts (Js.show (lc_currentFolderId ctx))) as [domain docUrl].
    rewrite Hk.
    apply quiet_bind; [apply quiet_sendRequest |]. intros body.
    apply quiet_bind; [quiet_cast |]. intros res.
    apply quiet_bind.
    { apply quiet_pure. intros v. destruct docUrl; [reflexivity |].
      destruct res; reflexivity. }
    intros folders.
    apply quiet_bind; [apply quiet_sendRequest |]. intros body'.
    apply quiet_bind; [quiet_cast |]. intros resPath. now apply quiet_pure.
Qed.

End Quiet.

(** Requests of a listing: every listing, whatever its outcome, issues at
    most two requests, each carrying [Bearer] and the [apiKey] secret
    ([Bearer undefined] without one) and none streamed; it writes no
    file and nothing to the host log, and a listing that returns leaves
    the console as it was. *)
Theorem listing_is_quiet (env : Env) (ctx : ListContext) (w : World) :
  exists rs,
    requests (snd (listResources env ctx w)) = (requests w ++ rs)%list /\
    (List.length rs <= 2)%nat /\
    Forall (fun rq =>
              req_authorization rq = "Bearer " ++ Js.show (lc_secrets ctx !! "apiKey") /\
              req_stream rq = false) rs /\
    files (snd (listResources env ctx w)) = files w /\
    journal (snd (listResources env ctx w)) = journal w /\
    (forall r, fst (listResources env ctx w) = Returns r ->
       console (snd (listResources env ctx w)) = console w).
Proof.
  destruct (@quiet_listResources env _ ctx eq_refl w)
    as (rs & I & L & P & F & J & _ & C).
  exists rs. repeat split; assumption.
Qed.

(** The remote client: the function that [memoize] wraps resolves with
    the body exactly when the answer has status 200; any other answer (a
    status the client rejects, or an accepted one such as 204, which the
    check after the request refuses) and any transport error give the
    one error [fetchFailed].  A success leaves the console alone. *)
Theorem sendRequest_needs_200 (env : Env) (url : string) (k : option string)
  (w : World) :
  (forall body,
     fst (sendRequest env url k w) = Returns body <->
     http env url (bearer k) = Replies 200 body) /\
  (fst (sendRequest env url k w) = Throws fetchFailed <->
   forall body, http env url (bearer k) <> Replies 200 body) /\
  (forall st body, http env url (bearer k) = Replies st body -> st <> 200 ->
     fst (sendRequest env url k w) = Throws fetchFailed) /\
  (forall body, http env url (bearer k) = Replies 200 body ->
     console (snd (sendRequest env url k w)) = console w).
Proof.
  split; [| split; [| split]];
    destruct (sendRequest_cases env url k w) as [(b & E & R) | (F & line & R)];
    rewrite R; cbn [fst snd]; try reflexivity.
  - intros body. rewrite E. split; [now intros [= <-] | now intros [= <-]].
  - intros body. split; [discriminate |]. intros H.
    unfold failing in F. rewrite H in F. now contradiction F.
  - split; [discriminate |]. intros H. now contradiction (H b).
  - split; [| reflexivity]. intros _ body H.
    unfold failing in F. rewrite H in F. now contradiction F.
  - intros st body H Hst. rewrite E in H. injection H as <- _. contradiction.
  - intros body H. unfold failing in F. rewrite H in F. now contradiction F.
Qed.

Lemma sendRequest_needs_200_witness :
  fst (sendRequest halfRemote "https://example.com/api/orgs" (Some "k") emptyWorld)
    = Throws fetchFailed /\
  validateStatus 204 = true.
Proof.
  destruct (sendRequest_needs_200 halfRemote "https://example.com/api/orgs"
              (Some "k") emptyWorld) as (_ & _ & A & _).
  split; [| reflexivity].
  apply (A 204 (POther "")); [reflexivity | discriminate].
Defined.

(** ** The listing of a document, request by request *)

Lemma bind_run_ok {A B} (k : A -> Eff B) (c : Eff A) (w w1 : World) (a : A) :
  c w = (Returns a, w1) -> bind c k w = k a w1.
Proof. unfold bind. now intros ->. Qed.

Lemma lacks_literal (c : ascii) (s : string) :
  forallb (fun x => negb (Ascii.eqb x c)) (Js.chars s) = true -> Js.lacks c s.
Proof.
  unfold Js.lacks. induction s as [|a s IH]; simpl; [tauto |].
  intros H. apply andb_true_iff in H as [Ha Hs].
  intros [-> | Hin]; [now rewrite Ascii.eqb_refl in Ha | now apply IH].
Qed.

(** Addresses of a document listing: for an identifier
    [{domain}|/docs/{docId}] whose document address
    [{baseUrl}/o/{domain}/api/docs/{docId}] (without [/o/{domain}] on the
    hosted service) does not contain "/tables", the listing that returns
    read the tables at that address followed by "/tables" and the
    document itself at that address; the name of that document is the
    title of the third breadcrumb. *)
Theorem document_listing_addresses (env : Env) (ctx : ListContext) (w w' : World)
  (r : ListResult) (domain docId : string) :
  lc_currentFolderId ctx = Some (domain ++ "|/docs/" ++ docId) ->
  dispatch (Some (domain ++ "|/docs/" ++ docId)) = DocumentLevel ->
  Js.lacks "|" domain -> Js.lacks "|" docId ->
  let base := cfg_url (lc_catalogConfig ctx) in
  let key := lc_secrets ctx !! "apiKey" in
  let address :=
    if onGristDomain (lc_catalogConfig ctx)
    then base ++ "/api/docs/" ++ docId
    else base ++ "/o/" ++ domain ++ "/api/docs/" ++ docId in
  Js.includes address "/tables" = false ->
  listResources env ctx w = (Returns r, w') ->
  exists tables doc,
    http env (address ++ "/tables") (bearer key) = Replies 200 (PTables tables) /\
    List.length (results r) = List.length tables /\
    http env address (bearer key) = Replies 200 (PDocument doc) /\
    option_map entry_title (last (path r)) = Some (doc_name doc).
Proof.
  intros Hid Hlevel Hd Hi base key address Hclean H.
  unfold listResources in H. rewrite Hid, Hlevel in H. cbn [Js.show] in H.
  apply listTables_returns in H as (tables & doc & Htables & Hdoc & Hres & _ & Hpath).
  cbv zeta in Hdoc.
  assert (U : tablesUrl (lc_catalogConfig ctx) (domain ++ "|/docs/" ++ docId)
              = address ++ "/tables").
  { rewrite (tablesUrl_document _ Hd Hi). subst address base.
    destruct (onGristDomain (lc_catalogConfig ctx));
      rewrite ?JsMore.append_assoc; simpl; rewrite ?JsMore.append_assoc; reflexivity. }
  rewrite U in Htables, Hdoc.
  assert (S : Js.substring (address ++ "/tables") 0
                (Some (Js.indexOf (address ++ "/tables") "/tables")) = address).
  { apply (@JsMore.strip_marker "/" "tables"); [| exact Hclean].
    now apply lacks_literal. }
  rewrite S in Hdoc.
  exists tables, doc. split; [exact Htables |]. split.
  - rewrite Hres, (folderIdParts_document Hd Hi). cbn [snd]. apply length_map.
  - split; [exact Hdoc |]. rewrite Hpath. reflexivity.
Qed.

Lemma document_listing_addresses_witness :
  let ctx := exampleContext (Some "org-1|/docs/d1") in
  exists r tables doc,
    fst (listResources exampleRemote ctx emptyWorld) = Returns r /\
    http exampleRemote "https://example.com/o/org-1/api/docs/d1/tables" "Bearer abcde"
      = Replies 200 (PTables tables) /\
    http exampleRemote "https://example.com/o/org-1/api/docs/d1" "Bearer abcde"
      = Replies 200 (PDocument doc) /\
    option_map entry_title (last (path r)) = Some (doc_name doc).
Proof.
  intros ctx.
  pose (run := listResources exampleRemote ctx emptyWorld).
  assert (R : listResources exampleRemote ctx emptyWorld = (fst run, snd run))
    by (unfold run; now destruct (listResources exampleRemote ctx emptyWorld)).
  assert (F : fst run = Returns
                {| count := 2;
                   results :=
                     [{| entry_id := "org-1|d1|Table1"; entry_title := "Table1";
                         entry_type := resource; entry_format := Some "csv" |};
                      {| entry_id := "org-1|d1|Table2"; entry_title := "Table2";
                         entry_type := resource; entry_format := Some "csv" |}];
                   path := [mkFolder "/orgs/1" "Personal";
                            mkFolder "/workspaces/1" "wsp 1";
                            mkFolder "org-1|/docs/d1" "doc1"] |})
    by (vm_compute; reflexivity).
  rewrite F in R.
  match type of R with
  | _ = (Returns ?r0, _) =>
      destruct (@document_listing_addresses exampleRemote ctx emptyWorld (snd run) r0
                  "org-1" "d1") as (tables & doc & A & _ & B & C)
  end.
  - reflexivity.
  - reflexivity.
  - now apply lacks_literal.
  - now apply lacks_literal.
  - reflexivity.
  - exact R.
  - eexists _, tables, doc. split; [exact F |]. split; [exact A |].
    split; [exact B | exact C].
Defined.

(** A document-level identifier without pipe: the second piece of the
    split is [undefined], the table list is requested at
    [{baseUrl}/o/{id}/apiundefined/tables] ([{baseUrl}/apiundefined/tables]
    on the hosted service), and as soon as the answer holds a table the
    listing ends on the [TypeError] of [undefined.substring]; an empty
    table list is listed as an empty document. *)
Theorem pipeless_document_id (env : Env) (ctx : ListContext) (w : World)
  (s : string) :
  lc_currentFolderId ctx = Some s ->
  dispatch (Some s) = DocumentLevel ->
  Js.lacks "|" s ->
  let base := cfg_url (lc_catalogConfig ctx) in
  let key := lc_secrets ctx !! "apiKey" in
  let url :=
    if onGristDomain (lc_catalogConfig ctx)
    then base ++ "/apiundefined/tables"
    else base ++ "/o/" ++ s ++ "/apiundefined/tables" in
  (forall t ts,
     http env url (bearer key) = Replies 200 (PTables (t :: ts)) ->
     fst (listResources env ctx w) = Throws substringOfUndefined) /\
  (forall doc,
     http env url (bearer key) = Replies 200 (PTables []) ->
     http env (Js.substring url 0 (Some (Js.indexOf url "/tables"))) (bearer key)
       = Replies 200 (PDocument doc) ->
     exists r w',
       listResources env ctx w = (Returns r, w') /\
       results r = [] /\ count r = 0%nat /\ List.length (path r) = 3%nat).
Proof.
  intros Hid Hlevel Hs base key url.
  assert (P : folderIdParts s = (s, None)).
  { unfold folderIdParts, Js.splitLimit. now rewrite (JsFacts.split_lacks Hs). }
  assert (U : tablesUrl (lc_catalogConfig ctx) s = url).
  { unfold tablesUrl. rewrite P. reflexivity. }
  unfold listResources. rewrite Hid, Hlevel. cbn [Js.show].
  unfold listTables. rewrite P, U. split.
  - intros t ts H.
    rewrite (@bind_run_ok _ _ _ _ _ _ _ (sendRequest_ok env url key w H)). reflexivity.
  - intros doc H H'.
    rewrite (@bind_run_ok _ _ _ _ _ _ _ (sendRequest_ok env url key w H)).
    cbn [asTables]. unfold bind at 1. cbn [ret]. unfold bind at 1. cbn [ret].
    rewrite (@bind_run_ok _ _ _ _ _ _ _ (sendRequest_ok env _ key _ H')).
    eexists _, _. split; [reflexivity |]. now repeat split.
Qed.

Lemma pipeless_document_id_witness :
  fst (listResources pipelessRemote (exampleContext (Some "abc")) emptyWorld)
    = Throws substringOfUndefined /\
  exists r,
    fst (listResources pipelessRemote (exampleContext (Some "empty")) emptyWorld)
      = Returns r /\ results r = [] /\ List.length (path r) = 3%nat.
Proof.
  split.
  - destruct (@pipeless_document_id pipelessRemote (exampleContext (Some "abc"))
                emptyWorld "abc") as (A & _);
      [reflexivity | reflexivity | now apply lacks_literal |].
    now rewrite (A {| table_id := "Table1" |} [] eq_refl).
  - destruct (@pipeless_document_id pipelessRemote (exampleContext (Some "empty"))
                emptyWorld "empty") as (_ & B);
      [reflexivity | reflexivity | now apply lacks_literal |].
    destruct (B documentOne eq_refl eq_refl) as (r & w' & R & E & _ & L).
    exists r. rewrite R. now repeat split.
Defined.

(** ** From one level to the next *)

(** The domain is carried from the workspace to the table list: every
    folder emitted by the listing of a workspace with a parent
    organization stands for one of its documents, and, fed back, has its
    tables requested at [{baseUrl}/o/{domain}/api/docs/{docId}/tables]
    for the domain of that organization ([{baseUrl}/api/docs/{docId}/tables]
    on the hosted service), provided domain and document identifier hold
    no pipe. *)
Theorem domain_reaches_tables (env : Env) (ctx : ListContext) (w w' : World)
  (r : ListResult) (s : string) (e : Entry) :
  lc_currentFolderId ctx = Some s ->
  dispatch (Some s) = WorkspaceLevel ->
  listResources env ctx w = (Returns r, w') ->
  In e (results r) ->
  exists ws docs doc,
    http env (cfg_url (lc_catalogConfig ctx) ++ "/api" ++ s)
         (bearer (lc_secrets ctx !! "apiKey")) = Replies 200 (PWorkspace ws) /\
    ws_docs ws = Some docs /\ In doc docs /\
    entry_title e = doc_name doc /\
    forall org, ws_org ws = Some org ->
      Js.lacks "|" (org_domain org) -> Js.lacks "|" (doc_id doc) ->
      tablesUrl (lc_catalogConfig ctx) (entry_id e) =
      if onGristDomain (lc_catalogConfig ctx)
      then cfg_url (lc_catalogConfig ctx) ++ "/api/docs/" ++ doc_id doc ++ "/tables"
      else cfg_url (lc_catalogConfig ctx) ++ "/o/" ++ org_domain org ++
           "/api/docs/" ++ doc_id doc ++ "/tables".
Proof.
  intros Hid Hlevel H Hin. unfold listResources in H.
  rewrite Hid, Hlevel in H. cbn [Js.show] in H.
  apply listDocuments_returns in H as (ws & Hh & Hres & _).
  rewrite Hres in Hin. destruct (ws_docs ws) as [docs |] eqn:Hd; [| destruct Hin].
  apply in_map_iff in Hin as (doc & <- & Hdoc).
  exists ws, docs, doc. split; [exact Hh |]. split; [exact Hd |].
  split; [exact Hdoc |]. split; [reflexivity |].
  intros org Ho Hdom Hdid. rewrite Ho. unfold documentFolder, mkFolder.
  cbn [entry_id option_map Js.show].
  now apply tablesUrl_document.
Qed.

Lemma domain_reaches_tables_witness :
  let ctx := exampleContext (Some "/workspaces/1") in
  let e := mkFolder "org-1|/docs/d1" "doc1" in
  tablesUrl (lc_catalogConfig ctx) (entry_id e) =
  "https://example.com/o/org-1/api/docs/d1/tables".
Proof.
  intros ctx e.
  pose (run := listResources exampleRemote ctx emptyWorld).
  assert (R : listResources exampleRemote ctx emptyWorld = (Returns
            {| count := 2;
               results := [mkFolder "org-1|/docs/d1" "doc1";
                           mkFolder "org-1|/docs/d2" "doc2"];
               path := [mkFolder "/orgs/1" "Personal";
                        mkFolder "/workspaces/1" "wsp 1"] |}, snd run))
    by (vm_compute; reflexivity).
  destruct (@domain_reaches_tables exampleRemote ctx emptyWorld (snd run) _
              "/workspaces/1" e eq_refl eq_refl R)
    as (ws & docs & doc & Hh & Hd & Hin & Ht & Hu); [left; reflexivity |].
  vm_compute in Hh. injection Hh as <-. injection Hd as <-.
  destruct Hin as [<- | [<- | []]]; [| discriminate Ht].
  rewrite (Hu _ eq_refl); [reflexivity | |]; now apply lacks_literal.
Defined.

(** The resource identifier emitted by a table listing is the one the
    fetcher takes apart: for the listing of [{domain}|/docs/{docId}],
    every entry has an id [{domain}|{docId}|{tableId}] and its
    [tableId] as title, and, for a [tableId] without pipe, the fetcher
    reads the same three components back from that id and downloads from
    [{baseUrl}/o/{domain}/api/docs/{docId}/download/csv?tableId={tableId}]
    (without [/o/{domain}] on the hosted service). *)
Theorem resource_id_round_trip (env : Env) (ctx : ListContext) (w w' : World)
  (r : ListResult) (domain docId : string) (e : Entry) :
  lc_currentFolderId ctx = Some (domain ++ "|/docs/" ++ docId) ->
  dispatch (Some (domain ++ "|/docs/" ++ docId)) = DocumentLevel ->
  Js.lacks "|" domain -> Js.lacks "|" docId ->
  listResources env ctx w = (Returns r, w') ->
  In e (results r) ->
  exists tableId,
    entry_id e = domain ++ "|" ++ docId ++ "|" ++ tableId /\
    entry_title e = tableId /\
    (Js.lacks "|" tableId ->
     resourceIdParts (entry_id e) =
       {| part_domain := Some domain; part_docId := Some docId;
          part_tableId := Some tableId |} /\
     downloadUrl (lc_catalogConfig ctx) (entry_id e) "csv" =
       if onGristDomain (lc_catalogConfig ctx)
       then cfg_url (lc_catalogConfig ctx) ++ "/api/docs/" ++ docId ++
            "/download/csv?tableId=" ++ tableId
       else cfg_url (lc_catalogConfig ctx) ++ "/o/" ++ domain ++ "/api/docs/" ++
            docId ++ "/download/csv?tableId=" ++ tableId).
Proof.
  intros Hid Hlevel Hd Hi H Hin. unfold listResources in H.
  rewrite Hid, Hlevel in H. cbn [Js.show] in H.
  apply listTables_returns in H as (tables & doc & _ & _ & Hres & _).
  rewrite (folderIdParts_document Hd Hi) in Hres. cbn [fst snd] in Hres.
  rewrite Hres in Hin. apply in_map_iff in Hin as (t & <- & _).
  exists (table_id t). unfold tableResource. cbn [entry_id entry_title].
  rewrite substring_docs. split; [reflexivity |]. split; [reflexivity |].
  intros Ht. split; [now apply resourceIdParts_three |].
  unfold downloadUrl. rewrite (resourceIdParts_three Hd Hi Ht). reflexivity.
Qed.

Lemma resource_id_round_trip_witness :
  let ctx := exampleContext (Some "org-1|/docs/d1") in
  let e := {| entry_id := "org-1|d1|Table1"; entry_title := "Table1";
              entry_type := resource; entry_format := Some "csv" |} in
  exists tableId,
    entry_id e = "org-1|d1|" ++ tableId /\ entry_title e = tableId /\
    (Js.lacks "|" tableId ->
     resourceIdParts (entry_id e) =
       {| part_domain := Some "org-1"; part_docId := Some "d1";
          part_tableId := Some tableId |} /\
     downloadUrl (lc_catalogConfig ctx) (entry_id e) "csv" =
       "https://example.com/o/org-1/api/docs/d1/download/csv?tableId=" ++ tableId).
Proof.
  intros ctx e.
  pose (run := listResources exampleRemote ctx emptyWorld).
  assert (R : listResources exampleRemote ctx emptyWorld =
              (Returns
                 {| count := 2;
                    results :=
                      [e;
                       {| entry_id := "org-1|d1|Table2"; entry_title := "Table2";
                          entry_type := resource; entry_format := Some "csv" |}];
                    path := [mkFolder "/orgs/1" "Personal";
                             mkFolder "/workspaces/1" "wsp 1";
                             mkFolder "org-1|/docs/d1" "doc1"] |}, snd run))
    by (vm_compute; reflexivity).
  apply (@resource_id_round_trip exampleRemote ctx emptyWorld (snd run) _
           "org-1" "d1" e eq_refl eq_refl
           (lacks_literal "|" "org-1" eq_refl) (lacks_literal "|" "d1" eq_refl) R).
  left. reflexivity.
Defined.

(** ** The download, effect by effect *)

Section Download.

Variable env : Env.

Lemma totalBytes_cons (chunk : string) (rest : list string) :
  totalBytes (chunk :: rest) = Z.of_nat (String.length chunk) + totalBytes rest.
Proof. unfold totalBytes. rewrite JsMore.length_concat_cons. lia. Qed.

Lemma totalBytes_nonneg (chunks : list string) : 0 <= totalBytes chunks.
Proof. unfold totalBytes. lia. Qed.

(** What the [data] listener does to the world. *)
Lemma onData_report (tableId : option string) (chunks : list string)
  (downloaded lastLogged : Z) (w : World) :
  exists w1 ps,
    onData env tableId chunks downloaded lastLogged w =
      (Returns (downloaded + totalBytes chunks), w1) /\
    requests w1 = requests w /\ console w1 = console w /\ files w1 = files w /\
    journal w1 = (journal w ++ ps)%list /\
    (List.length ps <= List.length chunks)%nat /\
    Forall (isProgress ("Downloading " ++ Js.show tableId) downloaded
              (downloaded + totalBytes chunks)) ps /\
    ((forall n, now env n - lastLogged <= logInterval) -> ps = []).
Proof.
  revert downloaded lastLogged w.
  induction chunks as [|chunk rest IH]; intros downloaded lastLogged w.
  - exists w, []. simpl. unfold ret, totalBytes. simpl.
    rewrite Z.add_0_r, app_nil_r. repeat split; auto.
  - rewrite totalBytes_cons. pose proof (totalBytes_nonneg rest) as Hpos.
    cbn [onData]. unfold bind at 1. unfold dateNow at 1.
    destruct (logInterval <? now env (ticks w) - lastLogged) eqn:Late.
    + unfold bind at 1. unfold logCall at 1. unfold bind at 1. unfold dateNow at 1.
      match goal with
      | |- context [onData env tableId rest ?d ?l ?v] =>
          destruct (IH d l v) as (w1 & ps & E & R & C & F & J & L & P & _)
      end.
      exists w1, (LogProgress ("Downloading " ++ Js.show tableId)
                    (downloaded + Z.of_nat (String.length chunk)) None :: ps).
      rewrite E. split; [f_equal; f_equal; lia |].
      split; [exact R |]. split; [exact C |]. split; [exact F |].
      split; [rewrite J; cbn [journal tick addJournal]; now rewrite <- app_assoc |].
      split; [simpl; lia |]. split.
      * constructor.
        -- eexists. split; [reflexivity | lia].
        -- eapply List.Forall_impl; [| exact P].
           intros c (n & -> & Hn). exists n. split; [reflexivity | lia].
      * intros Hclock. specialize (Hclock (ticks w)).
        apply Z.ltb_lt in Late. lia.
    + destruct (IH (downloaded + Z.of_nat (String.length chunk)) lastLogged (tick w))
        as (w1 & ps & E & R & C & F & J & L & P & Q).
      exists w1, ps. rewrite E. split; [f_equal; f_equal; lia |].
      split; [exact R |]. split; [exact C |]. split; [exact F |].
      split; [exact J |]. split; [simpl; lia |]. split; [| exact Q].
      eapply List.Forall_impl; [| exact P].
      intros c (n & -> & Hn). exists n. split; [reflexivity | lia].
Qed.

(** The whole of a successful download. *)
Lemma getResource_success (ctx : GetResourceContext) (w : World)
  (chunks : list string) (schema : TableSchema) :
  http env (req_url (downloadRequest ctx)) (req_authorization (downloadRequest ctx))
    = Replies 200 (PStream chunks) ->
  disk env (destFileOf env ctx) = None ->
  http env (req_url (schemaRequest ctx)) (req_authorization (schemaRequest ctx))
    = Replies 200 (PTableSchema schema) ->
  let task := "Downloading " ++
              Js.show (part_tableId (resourceIdParts (gc_resourceId ctx))) in
  exists w' ps,
    getResource env ctx w =
      (Returns (withFilePath (resourceOfSchema ctx schema) (destFileOf env ctx)), w') /\
    requests w' = (requests w ++ [downloadRequest ctx; schemaRequest ctx])%list /\
    console w' = console w /\
    files w' = <[destFileOf env ctx := String.concat "" chunks]> (files w) /\
    journal w' =
      (journal w ++
       [LogStep "Import de la ressource Grist";
        LogTask task "Télécargement de la ressource"] ++ ps ++
       [LogProgress task (totalBytes chunks) (Some (totalBytes chunks));
        LogInfo "Récupération des métadonnées"])%list /\
    (List.length ps <= List.length chunks)%nat /\
    Forall (isProgress task 0 (totalBytes chunks)) ps /\
    ((forall i j, now env j - now env i <= logInterval) -> ps = []).
Proof.
  intros Hdl Hdisk Hschema task. simpl in Hdl, Hschema.
  unfold getResource, tryCatch. fold (destFileOf env ctx).
  unfold bind at 1. unfold logCall at 1.
  unfold bind at 1. unfold axios at 1. rewrite Hdl.
  unfold bind at 1. simpl.
  unfold bind at 1. unfold logCall at 1.
  unfold bind at 1. unfold dateNow at 1.
  unfold bind at 1. simpl.
  unfold bind at 1.
  match goal with
  | |- context [onData env ?t ?c ?d ?l ?v] =>
      destruct (onData_report t c d l v) as (w1 & ps & E & R & C & F & J & L & P & Q);
      rewrite E
  end.
  unfold bind at 1. unfold pipeToFile at 1. rewrite Hdisk.
  unfold bind at 1. unfold logCall at 1.
  unfold bind at 1.
  unfold getMetadataOnFields, bind, logCall, axios. rewrite Hschema.
  eexists _, ps. split; [reflexivity |].
  cbn [fst snd requests console files journal addRequest addJournal addFile tick] in *.
  rewrite R, C, F, J. simpl Z.add in *.
  split; [now rewrite <- app_assoc |]. split; [reflexivity |].
  split; [reflexivity |].
  split; [rewrite <- !app_assoc; reflexivity |].
  split; [exact L |]. split; [exact P |].
  intros Hclock. apply Q. intros n. apply Hclock.
Qed.

End Download.

(** A successful download: when both requests are answered with status
    200 and the disk takes the file, the fetcher issues exactly two
    requests, the streamed download and then the plain schema lookup,
    writes the concatenated body unchanged to the file named
    [{tableId}.csv] in the scratch directory and to no other file,
    leaves the console alone, and returns a csv resource that points
    to that file and carries no size. *)
Theorem download_writes_file (env : Env) (ctx : GetResourceContext) (w : World)
  (chunks : list string) (schema : TableSchema) :
  http env (req_url (downloadRequest ctx)) (req_authorization (downloadRequest ctx))
    = Replies 200 (PStream chunks) ->
  disk env (destFileOf env ctx) = None ->
  http env (req_url (schemaRequest ctx)) (req_authorization (schemaRequest ctx))
    = Replies 200 (PTableSchema schema) ->
  let destFile :=
    path_join env (gc_tmpDir ctx)
      (Js.show (part_tableId (resourceIdParts (gc_resourceId ctx))) ++ ".csv") in
  exists r w',
    getResource env ctx w = (Returns r, w') /\
    res_filePath r = destFile /\
    res_format r = "csv" /\ res_mimeType r = "text/csv" /\ res_size r = None /\
    files w' !! destFile = Some (String.concat "" chunks) /\
    (forall other, other <> destFile -> files w' !! other = files w !! other) /\
    requests w' = (requests w ++ [downloadRequest ctx; schemaRequest ctx])%list /\
    console w' = console w.
Proof.
  intros Hdl Hdisk Hschema destFile.
  destruct (getResource_success env ctx w Hdl Hdisk Hschema)
    as (w' & ps & R & Hr & Hc & Hf & _).
  eexists _, w'. split; [exact R |]. fold (destFileOf env ctx) in destFile.
  subst destFile. repeat split; try assumption.
  - rewrite Hf. apply lookup_insert_eq.
  - intros other Hne. rewrite Hf. now apply lookup_insert_ne.
Qed.

Lemma download_writes_file_witness :
  let ctx := downloadContext "domain1|doc1|table1" in
  exists r w',
    getResource downloadRemote ctx emptyWorld = (Returns r, w') /\
    res_filePath r = "/tmp/table1.csv" /\
    files w' !! "/tmp/table1.csv" = Some "csv,data,here" /\
    map req_stream (requests w') = [true; false].
Proof.
  intros ctx.
  destruct (@download_writes_file downloadRemote ctx emptyWorld ["csv,data,here"]
              schemaOne eq_refl eq_refl eq_refl)
    as (r & w' & R & Hp & _ & _ & _ & Hf & _ & Hr & _).
  exists r, w'. split; [exact R |]. split; [exact Hp |]. split; [exact Hf |].
  rewrite Hr. reflexivity.
Defined.

(** Progress of a download: the host log of a successful download reads
    step, task, the intermediate progress reports, the final report and
    the metadata notice, in this order.  The final report carries the
    number of bytes of the body, both as progress and as total; there
    is at most one intermediate report per chunk, each without total and
    with a progress between 0 and that number; and none at all when
    the clock never shows more than 500 ms between two readings. *)
Theorem download_progress (env : Env) (ctx : GetResourceContext) (w : World)
  (chunks : list string) (schema : TableSchema) :
  http env (req_url (downloadRequest ctx)) (req_authorization (downloadRequest ctx))
    = Replies 200 (PStream chunks) ->
  disk env (destFileOf env ctx) = None ->
  http env (req_url (schemaRequest ctx)) (req_authorization (schemaRequest ctx))
    = Replies 200 (PTableSchema schema) ->
  let task := "Downloading " ++
              Js.show (part_tableId (resourceIdParts (gc_resourceId ctx))) in
  let size := Z.of_nat (String.length (String.concat "" chunks)) in
  exists ps,
    journal (snd (getResource env ctx w)) =
      (journal w ++
       [LogStep "Import de la ressource Grist";
        LogTask task "Télécargement de la ressource"] ++ ps ++
       [LogProgress task size (Some size);
        LogInfo "Récupération des métadonnées"])%list /\
    (List.length ps <= List.length chunks)%nat /\
    Forall (fun c => exists n, c = LogProgress task n None /\ 0 <= n <= size) ps /\
    ((forall i j, now env j - now env i <= 500) -> ps = []).
Proof.
  intros Hdl Hdisk Hschema task size.
  destruct (getResource_success env ctx w Hdl Hdisk Hschema)
    as (w' & ps & R & _ & _ & _ & Hj & Hl & Hp & Hq).
  exists ps. rewrite R. cbn [snd]. split; [exact Hj |]. split; [exact Hl |].
  split; [exact Hp | exact Hq].
Qed.

Lemma download_progress_witness :
  let ctx := downloadContext "domain1|doc1|table1" in
  journal (snd (getResource downloadRemote ctx emptyWorld)) =
    [LogStep "Import de la ressource Grist";
     LogTask "Downloading table1" "Télécargement de la ressource";
     LogProgress "Downloading table1" 13 (Some 13);
     LogInfo "Récupération des métadonnées"].
Proof.
  intros ctx.
  destruct (@download_progress downloadRemote ctx emptyWorld ["csv,data,here"]
              schemaOne eq_refl eq_refl eq_refl) as (ps & Hj & Hl & Hp & _).
  rewrite Hj. destruct ps as [| p [| q ps]]; [reflexivity | | simpl in Hl; lia].
  exfalso. clear Hl. revert Hj. vm_compute. discriminate.
Defined.

(** ** Failures of a download, effect by effect *)

Section DownloadFailures.

Variable env : Env.

(** A schema lookup that fails, with its cause. *)
Lemma getMetadataOnFields_failure (ctx : GetResourceContext) (w : World) :
  failing env (req_url (schemaRequest ctx)) (req_authorization (schemaRequest ctx)) ->
  exists cause w',
    getMetadataOnFields env ctx w = (Throws cause, w') /\
    files w' = files w /\
    requests w' = (requests w ++ [schemaRequest ctx])%list.
Proof.
  unfold failing. simpl.
  unfold getMetadataOnFields, bind, logCall, axios.
  destruct (http env _ _) as [err | st body]; intros F.
  - eexists _, _. split; [reflexivity |]. split; reflexivity.
  - destruct (validateStatus st);
      [| eexists _, _; split; [reflexivity |]; split; reflexivity].
    simpl. destruct (Z.eqb_spec st 200) as [-> | _]; [contradiction |].
    simpl. eexists _, _. split; [reflexivity |]. split; reflexivity.
Qed.

Lemma getResource_late_failure (ctx : GetResourceContext) (w : World)
  (chunks : list string) :
  http env (req_url (downloadRequest ctx)) (req_authorization (downloadRequest ctx))
    = Replies 200 (PStream chunks) ->
  disk env (destFileOf env ctx) = None ->
  failing env (req_url (schemaRequest ctx)) (req_authorization (schemaRequest ctx)) ->
  exists cause w',
    getResource env ctx w = (Throws (downloadFailed cause), w') /\
    files w' = <[destFileOf env ctx := String.concat "" chunks]> (files w) /\
    requests w' = (requests w ++ [downloadRequest ctx; schemaRequest ctx])%list.
Proof.
  intros Hdl Hdisk F. simpl in Hdl.
  unfold getResource, tryCatch. fold (destFileOf env ctx).
  unfold bind at 1. unfold logCall at 1.
  unfold bind at 1. unfold axios at 1. rewrite Hdl.
  unfold bind at 1. simpl.
  unfold bind at 1. unfold logCall at 1.
  unfold bind at 1. unfold dateNow at 1.
  unfold bind at 1. simpl.
  unfold bind at 1.
  match goal with
  | |- context [onData env ?t ?c ?d ?l ?v] =>
      destruct (onData_report env t c d l v) as (w1 & ps & E & R & C & Fl & _);
      rewrite E
  end.
  unfold bind at 1. unfold pipeToFile at 1. rewrite Hdisk.
  unfold bind at 1. unfold logCall at 1.
  unfold bind at 1.
  match goal with
  | |- context [getMetadataOnFields env ctx ?v] =>
      destruct (getMetadataOnFields_failure ctx v F) as (cause & w2 & G & Gf & Gr);
      rewrite G
  end.
  exists cause. eexists. unfold bind, logCall, consoleError, throw.
  split; [reflexivity |].
  cbn [fst snd requests files addRequest addJournal addFile addConsole tick] in *.
  rewrite Gf, Gr, R, Fl. split; [reflexivity |]. now rewrite <- app_assoc.
Qed.

Lemma getResource_early_failure (ctx : GetResourceContext) (w : World) :
  failing env (req_url (downloadRequest ctx)) (req_authorization (downloadRequest ctx)) ->
  exists cause w',
    getResource env ctx w = (Throws (downloadFailed cause), w') /\
    files w' = files w /\
    requests w' = (requests w ++ [downloadRequest ctx])%list.
Proof.
  intros F.
  destruct (getResource_download_failing env ctx w F) as (w' & R & Hr & Hf).
  eexists _, w'. split; [exact R |]. now split.
Qed.

Lemma getResource_disk_failure (ctx : GetResourceContext) (w : World)
  (chunks : list string) (failure : DiskFailure) :
  http env (req_url (downloadRequest ctx)) (req_authorization (downloadRequest ctx))
    = Replies 200 (PStream chunks) ->
  disk env (destFileOf env ctx) = Some failure ->
  exists w',
    getResource env ctx w = (Throws (downloadFailed (df_error failure)), w') /\
    files w' =
      match df_left failure with
      | Some written => <[destFileOf env ctx := written]> (files w)
      | None => files w
      end /\
    requests w' = (requests w ++ [downloadRequest ctx])%list.
Proof.
  intros Hdl Hdisk. simpl in Hdl.
  unfold getResource, tryCatch. fold (destFileOf env ctx).
  unfold bind at 1. unfold logCall at 1.
  unfold bind at 1. unfold axios at 1. rewrite Hdl.
  unfold bind at 1. simpl.
  unfold bind at 1. unfold logCall at 1.
  unfold bind at 1. unfold dateNow at 1.
  unfold bind at 1. simpl.
  unfold bind at 1.
  match goal with
  | |- context [onData env ?t ?c ?d ?l ?v] =>
      destruct (onData_report env t c d l v) as (w1 & ps & E & R & C & Fl & _);
      rewrite E
  end.
  unfold bind at 1. unfold pipeToFile at 1. rewrite Hdisk.
  eexists. unfold bind, logCall, consoleError, throw.
  split; [reflexivity |].
  destruct (df_left failure) as [written |];
    cbn [fst snd requests files addRequest addJournal addFile addConsole tick] in *;
    rewrite R, Fl; split; reflexivity.
Qed.

(** What the [catch] block leaves behind. *)
Lemma getResource_reports (ctx : GetResourceContext) (w w' : World) (e : Thrown) :
  getResource env ctx w = (Throws e, w') ->
  exists cause,
    e = downloadFailed cause /\
    last (journal w') =
      Some (LogError ("Failed to fetch resource: HTTP " ++ describe cause)) /\
    last (console w') = Some ("Error in getResource: " ++ describe cause).
Proof.
  unfold getResource, tryCatch.
  match goal with |- context [match ?c w with _ => _ end] =>
    destruct (c w) as [[a | cause |] w1] end; try discriminate.
  unfold bind, logCall, consoleError, throw. intros [= <- <-].
  exists cause. split; [reflexivity |].
  cbn [journal console addConsole addJournal]. split; apply last_snoc.
Qed.

End DownloadFailures.

(** A failed schema lookup leaves the file: when the download succeeded
    and the file is written but the schema request fails, the fetcher
    raises its error and returns nothing, yet the downloaded file is
    still in the scratch directory with the whole body; nothing removes
    it. *)
Theorem failed_schema_keeps_file (env : Env) (ctx : GetResourceContext)
  (w : World) (chunks : list string) :
  http env (req_url (downloadRequest ctx)) (req_authorization (downloadRequest ctx))
    = Replies 200 (PStream chunks) ->
  disk env (destFileOf env ctx) = None ->
  failing env (req_url (schemaRequest ctx)) (req_authorization (schemaRequest ctx)) ->
  exists cause w',
    getResource env ctx w = (Throws (downloadFailed cause), w') /\
    files w' !! destFileOf env ctx = Some (String.concat "" chunks) /\
    requests w' = (requests w ++ [downloadRequest ctx; schemaRequest ctx])%list.
Proof.
  intros Hdl Hdisk F.
  destruct (getResource_late_failure env ctx w Hdl Hdisk F) as (cause & w' & R & Hf & Hr).
  exists cause, w'. split; [exact R |]. split; [| exact Hr].
  rewrite Hf. apply lookup_insert_eq.
Qed.

Lemma failed_schema_keeps_file_witness :
  let ctx := downloadContext "domain1|doc1|table1" in
  exists cause w',
    getResource halfRemote ctx emptyWorld = (Throws (downloadFailed cause), w') /\
    files w' !! "/tmp/table1.csv" = Some "csv,data,here".
Proof.
  intros ctx.
  destruct (@failed_schema_keeps_file halfRemote ctx emptyWorld ["csv,"; "data,"; "here"])
    as (cause & w' & R & Hf & _).
  - reflexivity.
  - reflexivity.
  - unfold failing. simpl. discriminate.
  - exists cause, w'. split; [exact R | exact Hf].
Defined.

(** A failed download writes nothing: when the download request fails
    (transport error or status other than 200), the fetcher raises its
    error after that single request; no file is written and the schema
    is not asked for. *)
Theorem failed_download_writes_nothing (env : Env) (ctx : GetResourceContext)
  (w : World) :
  failing env (req_url (downloadRequest ctx)) (req_authorization (downloadRequest ctx)) ->
  exists cause w',
    getResource env ctx w = (Throws (downloadFailed cause), w') /\
    files w' = files w /\
    requests w' = (requests w ++ [downloadRequest ctx])%list.
Proof. apply getResource_early_failure. Qed.

Lemma failed_download_writes_nothing_witness :
  let ctx := downloadContext "domain1|doc3|table1" in
  exists cause w',
    getResource downloadRemote ctx emptyWorld = (Throws (downloadFailed cause), w') /\
    files w' = ∅ /\ List.length (requests w') = 1%nat.
Proof.
  intros ctx.
  destruct (@failed_download_writes_nothing downloadRemote ctx emptyWorld)
    as (cause & w' & R & Hf & Hr).
  - unfold failing. simpl. discriminate.
  - exists cause, w'. split; [exact R |]. split; [exact Hf |]. now rewrite Hr.
Defined.

(** A write that fails: when the download is answered with status 200
    but the write stream fails, the fetcher raises its error around the
    message of the stream's error and does not ask for the schema.  The
    file is left as the stream left it: created, or truncated, with the
    bytes that got through, and untouched only when the stream could not
    open it; nothing removes it. *)
Theorem refused_file_aborts (env : Env) (ctx : GetResourceContext) (w : World)
  (chunks : list string) (failure : DiskFailure) :
  http env (req_url (downloadRequest ctx)) (req_authorization (downloadRequest ctx))
    = Replies 200 (PStream chunks) ->
  disk env (destFileOf env ctx) = Some failure ->
  exists w',
    getResource env ctx w =
      (Throws (ErrorObject "Error"
                 (retrievalFailurePhrase ++ ": " ++
                  messageOrUnknown (df_error failure))), w') /\
    (forall written, df_left failure = Some written ->
       files w' = <[destFileOf env ctx := written]> (files w)) /\
    (df_left failure = None -> files w' = files w) /\
    requests w' = (requests w ++ [downloadRequest ctx])%list.
Proof.
  intros Hdl Hdisk.
  destruct (getResource_disk_failure env ctx w Hdl Hdisk) as (w' & R & Hf & Hr).
  exists w'. split; [exact R |]. split; [| split; [| exact Hr]].
  - intros written E. now rewrite E in Hf.
  - intros E. now rewrite E in Hf.
Qed.

Lemma refused_file_aborts_witness :
  let ctx := downloadContext "domain1|doc1|table1" in
  exists w',
    getResource fullDisk ctx emptyWorld =
      (Throws (ErrorObject "Error"
                 "Erreur pendant la récupération des données: ENOSPC: no space left on device, write"),
       w') /\
    files w' !! "/tmp/table1.csv" = Some "" /\
    List.length (requests w') = 1%nat.
Proof.
  intros ctx.
  destruct (@refused_file_aborts fullDisk ctx emptyWorld ["csv,data,here"]
              {| df_error := ErrorObject "Error" "ENOSPC: no space left on device, write";
                 df_left := Some "" |}
              eq_refl eq_refl) as (w' & R & Hf & _ & Hr).
  exists w'. split; [exact R |]. split.
  - rewrite (Hf "" eq_refl). apply lookup_insert_eq.
  - now rewrite Hr.
Defined.

(** A failure is reported: whenever the fetcher throws, the last call on
    the host log is [log.error] and the last line of the console is the
    line of the [catch] block, both carrying the message of the cause,
    and the error raised is built from that same cause. *)
Theorem failure_is_reported (env : Env) (ctx : GetResourceContext)
  (w w' : World) (e : Thrown) :
  getResource env ctx w = (Throws e, w') ->
  exists cause,
    e = ErrorObject "Error" (retrievalFailurePhrase ++ ": " ++ messageOrUnknown cause) /\
    last (journal w') =
      Some (LogError ("Failed to fetch resource: HTTP " ++ describe cause)) /\
    last (console w') = Some ("Error in getResource: " ++ describe cause).
Proof. apply getResource_reports. Qed.

Lemma failure_is_reported_witness :
  let ctx := downloadContext "domain1|doc4|table1" in
  exists cause w',
    getResource downloadRemote ctx emptyWorld = (Throws (downloadFailed cause), w') /\
    last (console w') = Some ("Error in getResource: " ++ describe cause).
Proof.
  intros ctx.
  pose (run := getResource downloadRemote ctx emptyWorld).
  assert (R : getResource downloadRemote ctx emptyWorld =
              (Throws (downloadFailed
                         (ErrorObject "AxiosError" "connect ECONNREFUSED 10.0.0.7:8484")),
               snd run))
    by (vm_compute; reflexivity).
  destruct (failure_is_reported _ _ _ R) as (cause & He & _ & Hc).
  exists cause, (snd run). split; [| exact Hc].
  rewrite R. unfold downloadFailed. now rewrite <- He.
Defined.

(** The earlier fetcher: when the download is answered with status 200
    and the file is written, it issues that single request and returns a
    resource whose id is the identifier it was given, whose title is the
    third piece of that identifier (undefined when there is none), whose
    size is the number of bytes of the file, and which has no schema. *)
Theorem legacy_resource (env : Env) (ctx : GetResourceContext) (w : World)
  (chunks : list string) :
  http env (req_url (downloadRequest ctx)) (req_authorization (downloadRequest ctx))
    = Replies 200 (PStream chunks) ->
  disk env (destFileOf env ctx) = None ->
  exists r w',
    getResourceLegacy env ctx w = (Returns r, w') /\
    res_id r = Some (gc_resourceId ctx) /\
    res_title r = nth_error (Js.split (gc_resourceId ctx) "|") 2 /\
    res_size r = Some (Z.of_nat (String.length (String.concat "" chunks))) /\
    res_schema r = None /\
    res_filePath r = destFileOf env ctx /\
    files w' !! destFileOf env ctx = Some (String.concat "" chunks) /\
    requests w' = (requests w ++ [downloadRequest ctx])%list.
Proof.
  intros Hdl Hdisk. simpl in Hdl.
  unfold getResourceLegacy, tryCatch. fold (destFileOf env ctx).
  unfold bind, axios, pipeToFile, statSize, asStream, ret. rewrite Hdl.
  change (validateStatus 200) with true.
  cbn [status data]. change (200 =? 200) with true. cbn [negb].
  rewrite Hdisk. cbn [files addFile]. rewrite lookup_insert_eq.
  eexists _, _. split; [reflexivity |].
  cbn [res_id res_title res_size res_schema res_filePath files requests addFile
       addRequest].
  repeat split.
  - unfold resourceIdParts, Js.splitLimit. cbn [part_tableId].
    now destruct (Js.split (gc_resourceId ctx) "|") as [| a [| b [| c l]]].
  - apply lookup_insert_eq.
Qed.

Lemma legacy_resource_witness :
  let ctx := downloadContext "domain1|doc1|table1" in
  exists r w',
    getResourceLegacy downloadRemote ctx emptyWorld = (Returns r, w') /\
    res_id r = Some "domain1|doc1|table1" /\
    res_title r = Some "table1" /\ res_size r = Some 13.
Proof.
  intros ctx.
  destruct (@legacy_resource downloadRemote ctx emptyWorld ["csv,data,here"]
              eq_refl eq_refl) as (r & w' & R & Hi & Ht & Hs & _).
  exists r, w'. split; [exact R |]. split; [exact Hi |]. split; [exact Ht | exact Hs].
Defined.

(** ** More on the stored key and the probe *)

Lemma storeApiKey_url (ctx : PrepareContext) :
  cfg_url (pc_catalogConfig (storeApiKey ctx)) = cfg_url (pc_catalogConfig ctx).
Proof.
  unfold storeApiKey. destruct (cfg_apiKey (pc_catalogConfig ctx)); [| reflexivity].
  destruct (_ && _); [reflexivity |]. destruct (_ && _); reflexivity.
Qed.

(** Storing the key twice is storing it once: what [prepare] returns can
    be handed to [prepare] again without any further change. *)
Theorem storeApiKey_idempotent (ctx : PrepareContext) :
  storeApiKey (storeApiKey ctx) = storeApiKey ctx /\
  prepareOffline (prepareOffline ctx) = prepareOffline ctx.
Proof.
  assert (I : storeApiKey (storeApiKey ctx) = storeApiKey ctx).
  { destruct ctx as [[url [k |]] caps secrets]; [| reflexivity].
    unfold storeApiKey at 2 3. cbn [pc_catalogConfig pc_secrets cfg_apiKey cfg_url
                                      pc_capabilities].
    destruct (Js.truthy (Some k) && negb (String.eqb k redactedKey)) eqn:T1.
    - unfold storeApiKey, redactedKey.
      cbn [pc_catalogConfig pc_secrets cfg_apiKey]. simpl.
      now rewrite andb_false_r.
    - destruct (Js.truthy (secrets !! "apiKey") && String.eqb k "") eqn:T2.
      + apply andb_true_iff in T2 as [_ Hk]. apply String.eqb_eq in Hk. subst k.
        unfold storeApiKey. cbn [pc_catalogConfig pc_secrets cfg_apiKey].
        rewrite lookup_delete_eq. reflexivity.
      + unfold storeApiKey. cbn [pc_catalogConfig pc_secrets cfg_apiKey].
        now rewrite T1, T2. }
  split; [exact I | exact I].
Qed.

(** Only the key is touched: [prepare] changes no secret other than
    [apiKey], and neither the base URL nor the capabilities. *)
Theorem storeApiKey_touches_key_only (ctx : PrepareContext) :
  (forall name, name <> "apiKey" ->
     pc_secrets (storeApiKey ctx) !! name = pc_secrets ctx !! name) /\
  cfg_url (pc_catalogConfig (storeApiKey ctx)) = cfg_url (pc_catalogConfig ctx) /\
  pc_capabilities (storeApiKey ctx) = pc_capabilities ctx /\
  (forall env w w' r, prepare env ctx w = (Returns r, w') ->
     (forall name, name <> "apiKey" -> pc_secrets r !! name = pc_secrets ctx !! name) /\
     cfg_url (pc_catalogConfig r) = cfg_url (pc_catalogConfig ctx) /\
     pc_capabilities r = pc_capabilities ctx).
Proof.
  assert (S : forall name, name <> "apiKey" ->
            pc_secrets (storeApiKey ctx) !! name = pc_secrets ctx !! name).
  { intros name Hne. unfold storeApiKey.
    destruct (cfg_apiKey (pc_catalogConfig ctx)); [| reflexivity].
    destruct (_ && _); [cbn [pc_secrets]; now rewrite lookup_insert_ne |].
    destruct (_ && _); [cbn [pc_secrets]; now rewrite lookup_delete_ne | reflexivity]. }
  assert (C : pc_capabilities (storeApiKey ctx) = pc_capabilities ctx).
  { unfold storeApiKey. destruct (cfg_apiKey (pc_catalogConfig ctx)); [| reflexivity].
    destruct (_ && _); [reflexivity |]. destruct (_ && _); reflexivity. }
  split; [exact S |]. split; [apply storeApiKey_url |]. split; [exact C |].
  intros env w w' r H. apply prepare_returns in H. subst r.
  split; [exact S |]. split; [apply storeApiKey_url | exact C].
Qed.

Lemma storeApiKey_touches_key_only_witness :
  pc_secrets (storeApiKey keptKeyContext) !! "other" = Some "kept" /\
  exists r w',
    prepare exampleRemote keptKeyContext emptyWorld = (Returns r, w') /\
    pc_secrets r !! "other" = Some "kept".
Proof.
  destruct (storeApiKey_touches_key_only keptKeyContext) as (A & _ & _ & B).
  split; [now rewrite A |].
  pose (run := prepare exampleRemote keptKeyContext emptyWorld).
  assert (R : prepare exampleRemote keptKeyContext emptyWorld =
              (Returns (storeApiKey keptKeyContext), snd run))
    by (vm_compute; reflexivity).
  eexists _, (snd run). split; [exact R |].
  destruct (B _ _ _ _ R) as (S & _). now rewrite S.
Defined.

(** No base URL: [prepare] raises the configuration error at once,
    before any request and without a line on the console. *)
Theorem prepare_requires_url (env : Env) (ctx : PrepareContext) (w : World) :
  cfg_url (pc_catalogConfig ctx) = "" ->
  prepare env ctx w =
  (Throws (ErrorObject "Error" urlRequiredMessage), w).
Proof.
  intros H. unfold prepare. rewrite storeApiKey_url, H. reflexivity.
Qed.

Lemma prepare_requires_url_witness :
  prepare exampleRemote noUrlContext emptyWorld =
  (Throws (ErrorObject "Error" urlRequiredMessage), emptyWorld) /\
  Js.includes urlRequiredMessage "requires a " = true.
Proof.
  split; [apply prepare_requires_url; reflexivity | reflexivity].
Defined.

(** The probe: with a base URL that parses, [prepare] issues exactly one
    plain request, at the address [new URL({url}/api/orgs)] prints, with
    the key as it is stored after the first step: a newly typed key is
    used at once, the placeholder leaves the held secret in use.  An
    answer whose status is in 200..299 lets [prepare] return, whatever
    the status in that range and whatever the body; any other status and
    any transport error give the connection error, whose message holds
    nothing of the upstream error, which goes to the console. *)
Theorem prepare_probe (env : Env) (ctx : PrepareContext) (w : World)
  (href : string) :
  cfg_url (pc_catalogConfig ctx) <> "" ->
  url_href env (cfg_url (pc_catalogConfig ctx) ++ "/api/orgs") = Some href ->
  let key := pc_secrets (storeApiKey ctx) !! "apiKey" in
  requests (snd (prepare env ctx w)) =
    (requests w ++
     [{| req_url := href; req_authorization := "Bearer " ++ Js.show key;
         req_stream := false |}])%list /\
  (forall k, cfg_apiKey (pc_catalogConfig ctx) = Some k -> k <> "" -> k <> "********" ->
     key = Some k) /\
  (cfg_apiKey (pc_catalogConfig ctx) = Some "********" ->
     key = pc_secrets ctx !! "apiKey") /\
  (forall st body, http env href (bearer key) = Replies st body ->
     200 <= st < 300 ->
     fst (prepare env ctx w) = Returns (storeApiKey ctx) /\
     console (snd (prepare env ctx w)) = console w) /\
  (forall st body, http env href (bearer key) = Replies st body ->
     ~ 200 <= st < 300 ->
     fst (prepare env ctx w) = Throws (ErrorObject "Error" connectionFailedMessage) /\
     console (snd (prepare env ctx w)) =
       (console w ++
        [("Error connecting to Grist API: " ++
          describe (rejection env LibNodeAxios st body))%string])%list) /\
  (forall err, http env href (bearer key) = Rejects err ->
     fst (prepare env ctx w) = Throws (ErrorObject "Error" connectionFailedMessage) /\
     console (snd (prepare env ctx w)) =
       (console w ++ [("Error connecting to Grist API: " ++ describe err)%string])%list).
Proof.
  intros Hurl Hhref key.
  assert (Run : prepare env ctx w =
    match http env href (bearer key) with
    | Rejects err =>
        (Throws (ErrorObject "Error" connectionFailedMessage),
         addConsole ("Error connecting to Grist API: " ++ describe err)
           (addRequest {| req_url := href; req_authorization := bearer key;
                          req_stream := false |} w))
    | Replies st body =>
        if validateStatus st then
          (Returns (storeApiKey ctx),
           addRequest {| req_url := href; req_authorization := bearer key;
                         req_stream := false |} w)
        else
          (Throws (ErrorObject "Error" connectionFailedMessage),
           addConsole ("Error connecting to Grist API: " ++
                       describe (rejection env LibNodeAxios st body))
             (addRequest {| req_url := href; req_authorization := bearer key;
                            req_stream := false |} w))
    end).
  { unfold prepare. rewrite storeApiKey_url.
    destruct (String.eqb_spec (cfg_url (pc_catalogConfig ctx)) ""); [contradiction |].
    unfold bind, tryCatch, newUrl. rewrite Hhref. unfold ret, axios. fold key.
    destruct (http env href (bearer key)) as [err | st body]; [reflexivity |].
    destruct (validateStatus st); reflexivity. }
  assert (V : forall st, validateStatus st = true <-> 200 <= st < 300).
  { intros st. unfold validateStatus. rewrite andb_true_iff, Z.leb_le, Z.ltb_lt.
    tauto. }
  rewrite Run. split; [| split; [| split; [| split; [| split]]]].
  - destruct (http env href (bearer key)) as [err | st body]; [reflexivity |].
    destruct (validateStatus st); reflexivity.
  - intros k Hk Hne Hred. subst key. unfold storeApiKey. rewrite Hk. simpl.
    destruct (String.eqb_spec k ""); [contradiction |].
    destruct (String.eqb_spec k redactedKey); [contradiction |].
    cbn [negb andb pc_secrets]. apply lookup_insert_eq.
  - intros Hk. subst key. unfold storeApiKey. rewrite Hk. simpl.
    now rewrite andb_false_r.
  - intros st body -> Hst. rewrite (proj2 (V st) Hst). now split.
  - intros st body -> Hst.
    destruct (validateStatus st) eqn:E; [| now split].
    exfalso. apply Hst. now apply V.
  - intros err ->. now split.
Qed.

Lemma prepare_probe_witness :
  requests (snd (prepare halfRemote newKeyContext emptyWorld)) =
    [{| req_url := "https://example.com/api/orgs";
        req_authorization := "Bearer abcde"; req_stream := false |}] /\
  fst (prepare halfRemote newKeyContext emptyWorld) = Returns (storeApiKey newKeyContext) /\
  fst (prepare (scripted [("https://example.com/api/orgs", Replies 401 (POther "{}"))])
         newKeyContext emptyWorld)
    = Throws (ErrorObject "Error" connectionFailedMessage).
Proof.
  destruct (@prepare_probe halfRemote newKeyContext emptyWorld
              "https://example.com/api/orgs") as (A & _ & _ & B & _);
    [discriminate | reflexivity |].
  destruct (@prepare_probe
              (scripted [("https://example.com/api/orgs", Replies 401 (POther "{}"))])
              newKeyContext emptyWorld "https://example.com/api/orgs")
    as (_ & _ & _ & _ & C & _); [discriminate | reflexivity |].
  split; [rewrite A; reflexivity |]. split.
  - destruct (B 204 (POther "") eq_refl) as [R _]; [lia | exact R].
  - destruct (C 401 (POther "{}") eq_refl) as [R _]; [lia | exact R].
Defined.

(** A base URL that does not parse: [prepare] raises the connection
    error without any request. *)
Theorem prepare_rejects_bad_url (env : Env) (ctx : PrepareContext) (w : World) :
  cfg_url (pc_catalogConfig ctx) <> "" ->
  url_href env (cfg_url (pc_catalogConfig ctx) ++ "/api/orgs") = None ->
  prepare env ctx w =
  (Throws (ErrorObject "Error" connectionFailedMessage),
   addConsole "Error connecting to Grist API: Invalid URL" w).
Proof.
  intros Hurl Hhref. unfold prepare. rewrite storeApiKey_url.
  destruct (String.eqb_spec (cfg_url (pc_catalogConfig ctx)) ""); [contradiction |].
  unfold bind, tryCatch, newUrl. rewrite Hhref. reflexivity.
Qed.

Lemma prepare_rejects_bad_url_witness :
  prepare noParse newKeyContext emptyWorld =
  (Throws (ErrorObject "Error" connectionFailedMessage),
   addConsole "Error connecting to Grist API: Invalid URL" emptyWorld) /\
  requests (snd (prepare noParse newKeyContext emptyWorld)) = [].
Proof.
  assert (R := @prepare_rejects_bad_url noParse newKeyContext emptyWorld).
  rewrite R; [split; reflexivity | discriminate | reflexivity].
Defined.

(** ** A base URL that holds the marker *)



